(** * r1portvlan: bulk VLAN assignment on access-point LAN ports

    A shallow embedding of [r1portvlan.py] and the properties of the
    script that its specification states.

    Conventions of the embedding.
    - A Python [str] is a [string]: a sequence of characters with code
      points 0..255.  On that range the whitespace of [str.strip],
      [str.lstrip] and [int] is the set given by [is_space], and the only
      decimal digits are ['0'..'9'].
    - A Python [int] is a [Z].
    - Everything the script does to the outside world (console, log,
      files, HTTP) is an [event]; a run is the list of its events in the
      order they happen, threaded through the monad [M], which also carries
      Python's exceptions.
    - What the outside world answers (the command line, the credentials
      file, the operator at the prompt, the HTTP server, the CSV file) is
      collected in a [world]. *)

From Stdlib Require Import String Ascii ZArith List Bool Lia.
From Stdlib Require Import DecimalString DecimalPos.
Import ListNotations.
Local Open Scope string_scope.
Local Open Scope Z_scope.
Local Open Scope list_scope.
Set Warnings "-register-all".

(** ** Python strings *)

Module PyStr.

(** [str.isspace] on one character, for code points below 256:
    TAB, LF, VT, FF, CR, the separators 0x1c..0x1f, SPACE, NEL (0x85) and
    NBSP (0xa0). *)
Definition is_space (c : ascii) : bool :=
  let n := N_of_ascii c in
  ((9 <=? n) && (n <=? 13) || (28 <=? n) && (n <=? 32)
   || (n =? 133) || (n =? 160))%N.

(** [s.lstrip()] *)
Fixpoint lstrip (s : string) : string :=
  match s with
  | EmptyString => EmptyString
  | String c rest => if is_space c then lstrip rest else s
  end.

(** [s.rstrip()] *)
Fixpoint rstrip (s : string) : string :=
  match s with
  | EmptyString => EmptyString
  | String c rest =>
      match rstrip rest with
      | EmptyString => if is_space c then EmptyString else String c EmptyString
      | r => String c r
      end
  end.

(** [s.strip()] *)
Definition strip (s : string) : string := rstrip (lstrip s).

(** [s.startswith(p)] *)
Definition startswith (p s : string) : bool := String.prefix p s.

(** Truth value of a string: [not s] holds exactly for the empty string. *)
Definition truthy (s : string) : bool :=
  match s with
  | EmptyString => false
  | String _ _ => true
  end.

(** [str(n)] for an integer: decimal digits, with a leading minus sign for
    a negative number. *)
Definition str_of_Z (z : Z) : string := NilZero.string_of_int (Z.to_int z).

Definition str_of_nat (n : nat) : string := str_of_Z (Z.of_nat n).

Definition is_digit (c : ascii) : bool :=
  let n := N_of_ascii c in ((48 <=? n) && (n <=? 57))%N.

Definition digit_value (c : ascii) : Z := Z.of_N (N_of_ascii c) - 48.

(** The whitespace that [int] passes over around an integer literal:
    TAB, LF, VT, FF, CR and SPACE, and of the characters from 0x7f on those
    that [str.isspace] takes, NEL (0x85) and NBSP (0xa0).  The separators
    0x1c..0x1f, which [str.strip] removes, are no whitespace for [int]. *)
Definition is_int_space (c : ascii) : bool :=
  let n := N_of_ascii c in
  ((9 <=? n) && (n <=? 13) || (n =? 32) || (n =? 133) || (n =? 160))%N.

Fixpoint int_lstrip (s : string) : string :=
  match s with
  | EmptyString => EmptyString
  | String c rest => if is_int_space c then int_lstrip rest else s
  end.

Fixpoint int_rstrip (s : string) : string :=
  match s with
  | EmptyString => EmptyString
  | String c rest =>
      match int_rstrip rest with
      | EmptyString => if is_int_space c then EmptyString else String c EmptyString
      | r => String c r
      end
  end.

(** The literal without the whitespace that [int] ignores around it. *)
Definition int_strip (s : string) : string := int_rstrip (int_lstrip s).

(** The largest number of digits that [int] converts from a string (and
    [str] to one): the interpreter's [sys.get_int_max_str_digits()], which
    the script leaves at its default. *)
Definition max_str_digits : nat := 4300.

(** The digits of an integer literal after its first digit: decimal
    digits, where one underscore may stand between two digits.
    [after_us] tells that the previous character was an underscore, [count]
    is the number of digits read so far; a literal of more than
    [max_str_digits] digits is refused. *)
Fixpoint int_digits (after_us : bool) (acc : Z) (count : nat) (s : string)
  : option Z :=
  match s with
  | EmptyString =>
      if after_us then None
      else if (max_str_digits <? count)%nat then None
      else Some acc
  | String c rest =>
      if is_digit c
      then int_digits false (acc * 10 + digit_value c) (S count) rest
      else if Ascii.eqb c "_" then
             if after_us then None else int_digits true acc count rest
      else None
  end.

(** An unsigned literal starts with a digit. *)
Definition int_unsigned (s : string) : option Z :=
  match s with
  | EmptyString => None
  | String c rest => if is_digit c then int_digits false (digit_value c) 1 rest
                     else None
  end.

(** [int(s)] in base 10: surrounding whitespace is ignored, then an optional
    sign, then the digits.  [None] is Python's [ValueError]. *)
Definition int_of_str (s : string) : option Z :=
  match int_strip s with
  | String "+" rest => int_unsigned rest
  | String "-" rest => option_map Z.opp (int_unsigned rest)
  | t => int_unsigned t
  end.

End PyStr.
Import PyStr.

Example int_of_str_plain : int_of_str "10" = Some 10.
Proof. reflexivity. Qed.
Example int_of_str_spaces : int_of_str "  -42 " = Some (-42).
Proof. reflexivity. Qed.
Example int_of_str_underscore : int_of_str "+1_000" = Some 1000.
Proof. reflexivity. Qed.
Example int_of_str_word : int_of_str "abc" = None.
Proof. reflexivity. Qed.
Example int_of_str_empty : int_of_str "" = None.
Proof. reflexivity. Qed.
Example int_of_str_float : int_of_str "1.5" = None.
Proof. reflexivity. Qed.
Example int_of_str_inner_space : int_of_str "- 5" = None.
Proof. reflexivity. Qed.
Example int_of_str_separator_is_no_space :
  int_of_str (String "031" "1") = None /\ strip (String "031" "1") = "1".
Proof. split; reflexivity. Qed.
Example int_of_str_nbsp : int_of_str (String "160" "7") = Some 7.
Proof. reflexivity. Qed.

(** [n] times the character [c]. *)
Fixpoint string_of_char (n : nat) (c : ascii) : string :=
  match n with
  | O => EmptyString
  | S n' => String c (string_of_char n' c)
  end.

Example int_of_str_digit_limit :
  int_of_str (string_of_char 4301 "1") = None /\
  int_of_str (string_of_char 4301 "0") = None /\
  int_of_str (string_of_char 4300 "0") = Some 0.
Proof. vm_compute. repeat split. Qed.

Example int_of_str_bad_underscore :
  int_of_str "_1" = None /\ int_of_str "1_" = None /\ int_of_str "1__0" = None.
Proof. repeat split. Qed.
Example str_of_Z_examples :
  str_of_Z 0 = "0" /\ str_of_Z 4094 = "4094" /\ str_of_Z (-7) = "-7".
Proof. repeat split. Qed.
Example strip_example : strip "  AP 100
" = "AP 100".
Proof. reflexivity. Qed.

(** ** Values, exceptions and events *)

(** A parsed JSON document, as [response.json()] returns it and as the
    [json=] argument of a request takes it.  Numbers are the integers. *)
Inductive json : Type :=
| JNull
| JBool (b : bool)
| JNum (z : Z)
| JStr (s : string)
| JArr (l : list json)
| JObj (fields : list (string * json)).

(** Truth value of a Python object obtained from JSON. *)
Definition json_truthy (j : json) : bool :=
  match j with
  | JNull => false
  | JBool b => b
  | JNum z => negb (z =? 0)
  | JStr s => truthy s
  | JArr l => match l with [] => false | _ :: _ => true end
  | JObj f => match f with [] => false | _ :: _ => true end
  end.

(** [d.get(k)] on a dict: the value, or [None]. *)
Fixpoint dict_get (k : string) (d : list (string * json)) : json :=
  match d with
  | [] => JNull
  | (k', v) :: rest => if String.eqb k k' then v else dict_get k rest
  end.

(** Whether a dict has the key. *)
Fixpoint dict_has (k : string) (d : list (string * json)) : bool :=
  match d with
  | [] => false
  | (k', _) :: rest => String.eqb k k' || dict_has k rest
  end.

(** A value of a row that [csv.DictReader] returns: the text of a field,
    [None] for a field the record does not have ([restval]), or the list of
    the surplus fields (stored under the key [None], [restkey]). *)
Inductive value : Type :=
| VStr (s : string)
| VNone
| VList (l : list string).

(** A row: a dict from field name ([None] is [restkey]) to value. *)
Definition row : Type := list (option string * value).

(** The argument of [sys.exit]. *)
Inductive exit_arg : Type :=
| ExitCode (n : Z)
| ExitMsg (s : string).

(** What goes wrong in the [requests] library. *)
Inductive request_error : Type :=
| ConnectionError (detail : string)   (* no response was received *)
| HTTPError (status : Z)              (* [raise_for_status] *)
| JSONDecodeError.                    (* [response.json()] on a body that is not JSON *)

(** Why [open] fails. *)
Inductive os_error : Type :=
| ENOENT                    (* [FileNotFoundError] *)
| EOther (detail : string). (* any other [OSError]: permissions, a directory, ... *)

(** The exceptions that the script can meet. *)
Inductive exn : Type :=
| SystemExit (a : exit_arg)
| KeyError (k : string)
| ValueError (literal : string)   (* [int] on a string that is no integer *)
| AttributeError (attr : string)  (* a method that the object does not have *)
| TypeError (detail : string)     (* [int] on an object that is no string *)
| OSError (e : os_error)
| RequestException (e : request_error).

Inductive level : Type := INFO | WARNING | ERROR.

(** An argument of a log call or a piece of a printed line.  The values
    are recorded, not their rendering by [str] and [repr]. *)
Inductive arg : Type :=
| AStr (s : string)
| AInt (z : Z)
| ARow (r : row)
| AJson (j : json)
| AExn (e : exn).

(** The value of a request header. *)
Inductive header_value : Type :=
| HLit (s : string)
| HBearer (token : json).   (* [f"Bearer {token}"] *)

Inductive event : Type :=
| Print (line : list arg)                       (* [print]: the pieces of the line *)
| Stderr (line : string)                        (* the message of [sys.exit(msg)] *)
| Traceback (e : exn)                           (* an exception nobody caught *)
| Log (l : level) (fmt : string) (args : list arg)
| IsFile (path : string)                        (* [os.path.isfile] *)
| Open (path : string)                          (* [open] for reading *)
| Input (prompt : string)                       (* [input] *)
| HttpPost (url : string) (headers : list (string * header_value))
           (data : list (string * string))
| HttpPut (url : string) (headers : list (string * header_value))
          (payload : json).

Definition is_put (e : event) : bool :=
  match e with HttpPut _ _ _ => true | _ => false end.

Definition is_http (e : event) : bool :=
  match e with HttpPost _ _ _ | HttpPut _ _ _ => true | _ => false end.

(** Access to the credentials file or to the CSV file. *)
Definition is_file_access (e : event) : bool :=
  match e with IsFile _ | Open _ => true | _ => false end.

(** An HTTP response, as far as the script looks at it. *)
Record response : Type := {
  status_code : Z;
  text : string;
  body : option json   (* [json()]: [None] when [text] is not JSON *)
}.

(** The outcome of sending a request. *)
Inductive reply : Type :=
| NoResponse (detail : string)   (* a transport error *)
| Responded (r : response).

(** The surroundings of one run.  The server may answer by the whole
    history of the run so far (the request is its last event). *)
Record world : Type := {
  argv : list string;
  credentials : option (os_error + list string);
     (* no such file; or a file that cannot be read; or its lines *)
  operator : string -> string;            (* the answer typed at a prompt *)
  server : list event -> reply;
  json_error_is_request_exception : bool; (* so since requests 2.27 *)
  csv : os_error + list string            (* the CSV file: its lines *)
}.

(** ** The monad of the script: a trace of events, and exceptions *)

Inductive result (A : Type) : Type :=
| Ok (a : A)
| Raise (e : exn).
Arguments Ok {A} a.
Arguments Raise {A} e.

Definition M (A : Type) : Type := list event -> result A * list event.

Definition ret {A} (a : A) : M A := fun tr => (Ok a, tr).

Definition bind {A B} (m : M A) (k : A -> M B) : M B :=
  fun tr => match m tr with
            | (Ok a, tr') => k a tr'
            | (Raise e, tr') => (Raise e, tr')
            end.

Definition raise {A} (e : exn) : M A := fun tr => (Raise e, tr).

Definition emit (e : event) : M unit := fun tr => (Ok tt, tr ++ [e]).

(** [try: m except <classes> as e: h e], where [catches] tells the
    exceptions of the classes.  An exception of the handler is not caught. *)
Definition try_except {A} (m : M A) (catches : exn -> bool) (h : exn -> M A)
  : M A :=
  fun tr => match m tr with
            | (Ok a, tr') => (Ok a, tr')
            | (Raise e, tr') => if catches e then h e tr' else (Raise e, tr')
            end.

Declare Scope py_scope.
Delimit Scope py_scope with py.
Notation "x <- m ;; k" := (bind m (fun x => k))
  (at level 61, m at next level, right associativity) : py_scope.
Notation "m ;; k" := (bind m (fun _ => k))
  (at level 61, right associativity) : py_scope.
Local Open Scope py_scope.

(** The exception classes of the [except] clauses. *)
Definition is_SystemExit (e : exn) : bool :=
  match e with SystemExit _ => true | _ => false end.

(** [except Exception]: everything but [SystemExit]. *)
Definition is_Exception (e : exn) : bool := negb (is_SystemExit e).

(** [except (KeyError, ValueError)] *)
Definition is_KeyError_or_ValueError (e : exn) : bool :=
  match e with
  | KeyError _ | ValueError _ => true
  | RequestException JSONDecodeError => true (* a [ValueError] too, in every version *)
  | _ => false
  end.

(** [except requests.RequestException] *)
Definition is_RequestException (json_is_req : bool) (e : exn) : bool :=
  match e with
  | RequestException JSONDecodeError => json_is_req
  | RequestException _ => true
  | _ => false
  end.

(** [except FileNotFoundError] *)
Definition is_FileNotFoundError (e : exn) : bool :=
  match e with OSError ENOENT => true | _ => false end.

(** ** The primitives of the script *)

Definition log (l : level) (fmt : string) (args : list arg) : M unit :=
  emit (Log l fmt args).

Definition print (line : list arg) : M unit := emit (Print line).

(** [sys.exit(a)] *)
Definition sys_exit {A} (a : exit_arg) : M A := raise (SystemExit a).

(** [input(prompt)] *)
Definition input (w : world) (prompt : string) : M string :=
  emit (Input prompt) ;; ret (operator w prompt).

(** [os.path.isfile(path)], for the credentials file. *)
Definition isfile (path : string) (file : option (os_error + list string))
  : M bool :=
  emit (IsFile path) ;;
  ret (match file with Some _ => true | None => false end).

(** [open(path)] and reading the lines of the file. *)
Definition open_lines (path : string) (file : os_error + list string)
  : M (list string) :=
  emit (Open path) ;;
  match file with
  | inl e => raise (OSError e)
  | inr lines => ret lines
  end.

(** Sending a request: the event, then the answer of the server. *)
Definition send (w : world) (request : event) : M response :=
  fun tr =>
    let tr' := tr ++ [request] in
    match server w tr' with
    | NoResponse detail => (Raise (RequestException (ConnectionError detail)), tr')
    | Responded r => (Ok r, tr')
    end.

(** [response.raise_for_status()]: an [HTTPError] for a status of 400 to 599. *)
Definition raise_for_status (r : response) : M unit :=
  if (400 <=? status_code r) && (status_code r <? 600)
  then raise (RequestException (HTTPError (status_code r)))
  else ret tt.

(** [response.json()] *)
Definition response_json (r : response) : M json :=
  match body r with
  | Some j => ret j
  | None => raise (RequestException JSONDecodeError)
  end.

(** [j.get(k)]: only a dict has the method. *)
Definition json_get (j : json) (k : string) : M json :=
  match j with
  | JObj d => ret (dict_get k d)
  | _ => raise (AttributeError "get")
  end.

(** [row[k]] *)
Fixpoint row_lookup (k : string) (r : row) : option value :=
  match r with
  | [] => None
  | (Some k', v) :: rest => if String.eqb k k' then Some v else row_lookup k rest
  | (None, _) :: rest => row_lookup k rest
  end.

Definition getitem (r : row) (k : string) : M value :=
  match row_lookup k r with
  | Some v => ret v
  | None => raise (KeyError k)
  end.

(** [v.strip()] *)
Definition value_strip (v : value) : M string :=
  match v with
  | VStr s => ret (strip s)
  | _ => raise (AttributeError "strip")
  end.

(** [int(v)] *)
Definition value_int (v : value) : M Z :=
  match v with
  | VStr s => match int_of_str s with
              | Some z => ret z
              | None => raise (ValueError s)
              end
  | _ => raise (TypeError "int() argument must be a string or a number")
  end.

(** ** [get_bearer_token] *)

Definition auth_url (tenant_id : string) : string :=
  ("https://api.ruckus.cloud/oauth2/token/" ++ tenant_id)%string.

Definition get_bearer_token (w : world) (tenant_id client_id client_secret : string)
  : M json :=
  let headers := [("Content-Type", HLit "application/x-www-form-urlencoded")] in
  let data := [("grant_type", "client_credentials");
               ("client_id", client_id);
               ("client_secret", client_secret);
               ("audience", "https://api.ruckus.cloud")] in
  try_except
    (log INFO "Requesting JWT token from %s" [AStr (auth_url tenant_id)] ;;
     response <- send w (HttpPost (auth_url tenant_id) headers data) ;;
     log INFO "Auth response: %s %s"
         [AInt (status_code response); AStr (text response)] ;;
     raise_for_status response ;;
     j <- response_json response ;;
     token <- json_get j "access_token" ;;
     if negb (json_truthy token) then
       log ERROR "No access_token in response: %s" [AStr (text response)] ;;
       sys_exit (ExitMsg "Authentication failed: No access_token in response.")
     else
       log INFO "Successfully obtained JWT token." [] ;;
       ret token)
    (is_RequestException (json_error_is_request_exception w))
    (fun e =>
       log ERROR "Authentication failed: %s" [AExn e] ;;
       sys_exit (ExitMsg "Authentication failed. Check app.log for details.")).

(** ** [configure_ap_port] *)

Definition port_settings_url (venue_id ap_serial : string) (port : Z) : string :=
  ("https://api.ruckus.cloud/venues/" ++ venue_id ++ "/aps/" ++ ap_serial
   ++ "/lanPorts/" ++ str_of_Z port ++ "/settings")%string.

Definition put_headers (bearer_token : json) : list (string * header_value) :=
  [("Authorization", HBearer bearer_token);
   ("Content-Type", HLit "application/json")].

Definition payload (vlan_id : Z) : json :=
  JObj [("useVenueSettings", JBool false);
        ("enabled", JBool true);
        ("overwriteUntagId", JNum vlan_id);
        ("overwriteVlanMembers", JStr (str_of_Z vlan_id))].

Definition configure_ap_port (w : world) (tenant_id venue_id ap_serial : string)
  (port vlan_id : Z) (bearer_token : json) : M unit :=
  let url := port_settings_url venue_id ap_serial port in
  try_except
    (log INFO "PUT %s | Payload: %s" [AStr url; AJson (payload vlan_id)] ;;
     response <- send w (HttpPut url (put_headers bearer_token) (payload vlan_id)) ;;
     log INFO "Response [%s]: %s"
         [AInt (status_code response); AStr (text response)] ;;
     raise_for_status response ;;
     log INFO "Successfully configured AP %s port %s at venue %s"
         [AStr ap_serial; AInt port; AStr venue_id] ;;
     print [AStr "Configured AP "; AStr ap_serial; AStr " port "; AInt port;
            AStr " at venue "; AStr venue_id])
    (is_RequestException (json_error_is_request_exception w))
    (fun e =>
       log ERROR "Failed to configure port %s on %s at venue %s: %s"
           [AInt port; AStr ap_serial; AStr venue_id; AExn e] ;;
       print [AStr "Failed to configure port "; AInt port; AStr " on ";
              AStr ap_serial; AStr " at venue "; AStr venue_id; AStr ": ";
              AExn e]).

(** ** [skip_comments] *)

(** The test of the loop: [line.lstrip().startswith('#')]. *)
Definition is_comment (line : string) : bool := startswith "#" (lstrip line).

(** The generator, as the list of the lines it yields from the lines that
    the file still has: the loop passes over comment lines, yields the first
    other line and leaves; [yield from] then yields what is left. *)
Fixpoint skip_comments (file_obj : list string) : list string :=
  match file_obj with
  | [] => []
  | line :: rest =>
      if negb (is_comment line) then line :: rest
      else skip_comments rest
  end.

(** ** [csv.DictReader] *)

Definition FIELDNAMES : list string :=
  ["venue_id"; "ap_serial"; "port_id"; "vlan_id"].

(** [dict(zip(fieldnames, record))] *)
Fixpoint zip_fields (names : list string) (record : list string) : row :=
  match names, record with
  | n :: names', f :: record' => (Some n, VStr f) :: zip_fields names' record'
  | _, _ => []
  end.

(** The dict of one record: surplus fields go under [restkey] ([None]) as
    a list, the names that the record does not reach get [restval] ([None]). *)
Definition dict_of_record (fieldnames : list string) (record : list string) : row :=
  let lf := length fieldnames in
  let lr := length record in
  zip_fields fieldnames record ++
  (if (lf <? lr)%nat then [(None, VList (skipn lf record))]
   else if (lr <? lf)%nat then map (fun k => (Some k, VNone)) (skipn lr fieldnames)
   else []).

Definition is_empty_record (record : list string) : bool :=
  match record with [] => true | _ :: _ => false end.

(** The rows of the reader: empty records (blank lines) are passed over. *)
Definition DictReader (records : list (list string)) (fieldnames : list string)
  : list row :=
  map (dict_of_record fieldnames)
      (filter (fun record => negb (is_empty_record record)) records).

(** ** [main] *)

Section Script.

(** [csv.reader], the parser of the standard library: from the lines it is
    given to the records, each a list of fields. *)
Variable csv_reader : list string -> list (list string).

(** The body of the loop over the rows. *)
Definition process_row (w : world) (tenant_id : string) (bearer_token : json)
  (idx : nat) (r : row) : M unit :=
  try_except
    (log INFO "Processing row %d: %s" [AInt (Z.of_nat idx); ARow r] ;;
     v <- getitem r "venue_id" ;;
     venue_id <- value_strip v ;;
     a <- getitem r "ap_serial" ;;
     ap_serial <- value_strip a ;;
     p <- getitem r "port_id" ;;
     port <- value_int p ;;
     l <- getitem r "vlan_id" ;;
     vlan_id <- value_int l ;;
     if negb (truthy venue_id) || negb (truthy ap_serial) then
       log WARNING "Missing venue_id or ap_serial in row %d: %s"
           [AInt (Z.of_nat idx); ARow r] ;;
       print [AStr "Skipping row "; AInt (Z.of_nat idx);
              AStr ": Missing venue_id or ap_serial."]
     else if negb ((1 <=? vlan_id) && (vlan_id <=? 4094)) then
       log WARNING "Invalid VLAN ID in row %d: %s"
           [AInt (Z.of_nat idx); ARow r] ;;
       print [AStr "Skipping row "; AInt (Z.of_nat idx);
              AStr ": Invalid VLAN ID "; AInt vlan_id; AStr "."]
     else
       configure_ap_port w tenant_id venue_id ap_serial port vlan_id bearer_token)
    is_KeyError_or_ValueError
    (fun e =>
       log ERROR "Error processing row %d: %s | Row: %s"
           [AInt (Z.of_nat idx); AExn e; ARow r] ;;
       print [AStr "Skipping row "; AInt (Z.of_nat idx); AStr ": "; AExn e]).

(** [for idx, row in enumerate(reader, idx): ...] *)
Fixpoint for_rows (w : world) (tenant_id : string) (bearer_token : json)
  (idx : nat) (rows : list row) : M unit :=
  match rows with
  | [] => ret tt
  | r :: rest =>
      process_row w tenant_id bearer_token idx r ;;
      for_rows w tenant_id bearer_token (S idx) rest
  end.

(** The credentials: from the file [credentials] when there is one, from
    the operator otherwise. *)
Definition load_credentials (w : world) : M (string * string * string) :=
  let credentials_file := "credentials" in
  b <- isfile credentials_file (credentials w) ;;
  if b then
    log INFO "Loading credentials from file: %s" [AStr credentials_file] ;;
    try_except
      (f <- open_lines credentials_file
              (match credentials w with Some c => c | None => inl ENOENT end) ;;
       let lines := map strip f in
       if (3 <=? length lines)%nat then
         ret (nth 0 lines "", nth 1 lines "", nth 2 lines "")
       else
         log ERROR "Credentials file missing required lines." [] ;;
         sys_exit (ExitMsg "Credentials file must have at least 3 lines: Tenant ID, Client ID, Client Secret."))
      is_Exception
      (fun e =>
         log ERROR "Error reading credentials file: %s" [AExn e] ;;
         sys_exit (ExitMsg "Error reading credentials file. Check app.log for details."))
  else
    log INFO "Prompting user for credentials." [] ;;
    tenant_id <- input w "Enter Tenant ID: " ;;
    client_id <- input w "Enter Client ID: " ;;
    client_secret <- input w "Enter Client Secret: " ;;
    if negb (truthy tenant_id && truthy client_id && truthy client_secret) then
      log ERROR "Missing credential input from user." [] ;;
      sys_exit (ExitMsg "Tenant ID, Client ID, and Client Secret are required.")
    else ret (tenant_id, client_id, client_secret).

(** The part of [main] that reads the CSV file.  The two [except] clauses
    of the one [try] are tried in their order; [SystemExit] is no
    [Exception] and passes. *)
Definition process_csv (w : world) (csv_file tenant_id : string)
  (bearer_token : json) : M unit :=
  try_except
    (csvfile <- open_lines csv_file (csv w) ;;
     log INFO "Opened CSV file: %s" [AStr csv_file] ;;
     let reader := DictReader (csv_reader (skip_comments csvfile)) FIELDNAMES in
     for_rows w tenant_id bearer_token 1 reader)
    is_Exception
    (fun e =>
       if is_FileNotFoundError e then
         log ERROR "CSV file not found: %s" [AStr csv_file] ;;
         print [AStr "CSV file "; AStr csv_file; AStr " not found"] ;;
         sys_exit (ExitCode 1)
       else
         log ERROR "Unexpected error opening CSV: %s" [AExn e] ;;
         print [AStr "Unexpected error opening CSV: "; AExn e] ;;
         sys_exit (ExitCode 1)).

Definition main (w : world) : M unit :=
  if negb (length (argv w) =? 2)%nat then
    print [AStr "Usage: python configure_ap_ports.py <filename.csv>"] ;;
    log ERROR "Incorrect usage: missing CSV filename argument." [] ;;
    sys_exit (ExitCode 1)
  else
    let csv_file := nth 1 (argv w) "" in
    c <- load_credentials w ;;
    let '(tenant_id, client_id, client_secret) := c in
    bearer_token <- get_bearer_token w tenant_id client_id client_secret ;;
    process_csv w csv_file tenant_id bearer_token.

(** The process from its start to its end: the exit status and the events.
    [sys.exit] with a message writes it to the standard error and exits
    with 1, as does an exception that nobody caught, with its traceback. *)
Definition run (w : world) : Z * list event :=
  match main w [] with
  | (Ok _, tr) => (0, tr)
  | (Raise (SystemExit (ExitCode n)), tr) => (n, tr)
  | (Raise (SystemExit (ExitMsg s)), tr) => (1, tr ++ [Stderr s])
  | (Raise e, tr) => (1, tr ++ [Traceback e])
  end.

Definition exit_status (w : world) : Z := fst (run w).
Definition trace (w : world) : list event := snd (run w).

End Script.

(** ** A reader for CSV text without quotes *)

(** The line without its line terminator. *)
Fixpoint chomp (s : string) : string :=
  match s with
  | EmptyString => EmptyString
  | String c rest =>
      match c, rest with
      | "010"%char, EmptyString => EmptyString
      | "013"%char, EmptyString => EmptyString
      | "013"%char, String "010" EmptyString => EmptyString
      | _, _ => String c (chomp rest)
      end
  end.

(** The fields of a line: the pieces between the commas. *)
Fixpoint split_commas (cur : string) (s : string) : list string :=
  match s with
  | EmptyString => [cur]
  | String c rest =>
      if Ascii.eqb c "," then cur :: split_commas EmptyString rest
      else split_commas (cur ++ String c EmptyString)%string rest
  end.

(** What [csv.reader] yields on lines that hold no quote character: one
    record per line, no field for a blank line. *)
Definition plain_csv_reader (lines : list string) : list (list string) :=
  map (fun line => match chomp line with
                   | EmptyString => []
                   | s => split_commas EmptyString s
                   end) lines.

(** * Properties *)

(** ** Reasoning about the monad *)

Ltac unfold_py :=
  unfold log, print, sys_exit, input, isfile, open_lines, send,
    raise_for_status, response_json, json_get, getitem, value_strip,
    value_int, bind, ret, raise, emit, try_except in *.

(** Traces are compared with their appends nested to the right. *)
Ltac norm_trace := repeat rewrite <- app_assoc; cbn [app].

Lemma bind_Ok {A B} (m : M A) (k : A -> M B) tr a tr' :
  m tr = (Ok a, tr') -> bind m k tr = k a tr'.
Proof. intros H. unfold bind. rewrite H. reflexivity. Qed.

Lemma bind_Raise {A B} (m : M A) (k : A -> M B) tr e tr' :
  m tr = (Raise e, tr') -> bind m k tr = (Raise e, tr').
Proof. intros H. unfold bind. rewrite H. reflexivity. Qed.

Lemma try_except_Ok {A} (m : M A) catches h tr a tr' :
  m tr = (Ok a, tr') -> try_except m catches h tr = (Ok a, tr').
Proof. intros H. unfold try_except. rewrite H. reflexivity. Qed.

(** ** [skip_comments] *)

Lemma skip_comments_split (lines : list string) :
  exists dropped,
    lines = dropped ++ skip_comments lines /\
    forallb is_comment dropped = true.
Proof.
  induction lines as [|line rest IH].
  - exists []. split; reflexivity.
  - cbn [skip_comments]. destruct (is_comment line) eqn:Hc; cbn [negb].
    + destruct IH as (dropped & Heq & Hall).
      exists (line :: dropped). split.
      * cbn [app]. f_equal. exact Heq.
      * cbn [forallb]. rewrite Hc, Hall. reflexivity.
    + exists []. split; reflexivity.
Qed.

Lemma skip_comments_head (lines : list string) :
  match skip_comments lines with
  | [] => True
  | first :: _ => is_comment first = false
  end.
Proof.
  induction lines as [|line rest IH]; cbn [skip_comments].
  - exact I.
  - destruct (is_comment line) eqn:Hc; cbn [negb]; [exact IH | exact Hc].
Qed.

(** C5.  The lines that [skip_comments] yields are the input without its
    leading run of comment lines: the input is some lines that all are
    comments ([lstrip] of the line starts with [#]), followed by exactly
    the yielded lines, unchanged and in their order; and the first yielded
    line, when there is one, is no comment.  So a leading comment line is
    never passed on as data, while everything from the first other line on
    is yielded whatever it starts with. *)
Theorem skip_comments_drops_leading_comments (lines : list string) :
  exists dropped,
    lines = dropped ++ skip_comments lines /\
    forallb is_comment dropped = true /\
    match skip_comments lines with
    | [] => True
    | first :: _ => is_comment first = false
    end.
Proof.
  destruct (skip_comments_split lines) as (dropped & Heq & Hall).
  exists dropped. repeat split; try assumption.
  apply skip_comments_head.
Qed.

Example skip_comments_keeps_later_comments :
  skip_comments ["# header"; "  # indented comment"; "V1,AP100,1,10";
                 "# not a header"; "V2,AP200,2,20"]
  = ["V1,AP100,1,10"; "# not a header"; "V2,AP200,2,20"].
Proof. reflexivity. Qed.

Example skip_comments_only_comments : skip_comments ["# a"; "#b"] = [].
Proof. reflexivity. Qed.

(** ** [configure_ap_port] *)

(** The events of a configuration request after the request itself, by
    the answer of the server. *)
Definition configure_report (venue_id ap_serial : string) (port : Z) (answer : reply)
  : list event :=
  let failed e :=
    [Log ERROR "Failed to configure port %s on %s at venue %s: %s"
         [AInt port; AStr ap_serial; AStr venue_id; AExn e];
     Print [AStr "Failed to configure port "; AInt port; AStr " on ";
            AStr ap_serial; AStr " at venue "; AStr venue_id; AStr ": ";
            AExn e]] in
  match answer with
  | NoResponse detail => failed (RequestException (ConnectionError detail))
  | Responded r =>
      Log INFO "Response [%s]: %s" [AInt (status_code r); AStr (text r)] ::
      if (400 <=? status_code r) && (status_code r <? 600)
      then failed (RequestException (HTTPError (status_code r)))
      else [Log INFO "Successfully configured AP %s port %s at venue %s"
                [AStr ap_serial; AInt port; AStr venue_id];
            Print [AStr "Configured AP "; AStr ap_serial; AStr " port ";
                   AInt port; AStr " at venue "; AStr venue_id]]
  end.

(** The two events up to the request. *)
Definition configure_request (venue_id ap_serial : string) (port vlan_id : Z)
  (bearer_token : json) : list event :=
  let url := port_settings_url venue_id ap_serial port in
  [Log INFO "PUT %s | Payload: %s" [AStr url; AJson (payload vlan_id)];
   HttpPut url (put_headers bearer_token) (payload vlan_id)].

Lemma configure_ap_port_trace w tenant_id venue_id ap_serial port vlan_id token tr :
  configure_ap_port w tenant_id venue_id ap_serial port vlan_id token tr =
  (Ok tt,
   tr ++ configure_request venue_id ap_serial port vlan_id token
      ++ configure_report venue_id ap_serial port
           (server w (tr ++ configure_request venue_id ap_serial port vlan_id token))).
Proof.
  unfold configure_ap_port, configure_request, configure_report.
  unfold_py. norm_trace.
  destruct (server w _) as [detail | r]; cbn.
  - norm_trace. reflexivity.
  - destruct ((400 <=? status_code r) && (status_code r <? 600)); cbn;
      norm_trace; reflexivity.
Qed.

(** ** The row processor *)

(** What the specification lets the row processor decide. *)
Inductive decision : Type :=
| Valid (venue_id ap_serial : string) (port vlan_id : Z)
| SkipParseError (literal : string)
| SkipMissing
| SkipInvalidVlan (vlan_id : Z).

(** The validation order in the words of the specification:
    1. trim [venue_id] and [ap_serial], parse [port_id] and [vlan_id] as
       integers, a parse failure is a skip with the parse error;
    2. [venue_id] or [ap_serial] empty: skip, missing identifiers;
    3. [vlan_id] outside 1..4094: skip, invalid VLAN ID;
    4. otherwise a valid request. *)
Definition spec_validate (venue_id ap_serial port_id vlan_id : string) : decision :=
  let venue := strip venue_id in
  let ap := strip ap_serial in
  match int_of_str port_id with
  | None => SkipParseError port_id
  | Some port =>
      match int_of_str vlan_id with
      | None => SkipParseError vlan_id
      | Some vlan =>
          if String.eqb venue "" || String.eqb ap "" then SkipMissing
          else if (vlan <? 1) || (4094 <? vlan) then SkipInvalidVlan vlan
          else Valid venue ap port vlan
      end
  end.

(** What the script does on a decision for row [idx]: the skip reported on
    the console and in the log, or the call of the port configurator. *)
Definition carry_out (w : world) (tenant_id : string) (bearer_token : json)
  (idx : nat) (r : row) (d : decision) : M unit :=
  match d with
  | Valid venue ap port vlan =>
      configure_ap_port w tenant_id venue ap port vlan bearer_token
  | SkipParseError literal =>
      log ERROR "Error processing row %d: %s | Row: %s"
          [AInt (Z.of_nat idx); AExn (ValueError literal); ARow r] ;;
      print [AStr "Skipping row "; AInt (Z.of_nat idx); AStr ": ";
             AExn (ValueError literal)]
  | SkipMissing =>
      log WARNING "Missing venue_id or ap_serial in row %d: %s"
          [AInt (Z.of_nat idx); ARow r] ;;
      print [AStr "Skipping row "; AInt (Z.of_nat idx);
             AStr ": Missing venue_id or ap_serial."]
  | SkipInvalidVlan vlan =>
      log WARNING "Invalid VLAN ID in row %d: %s"
          [AInt (Z.of_nat idx); ARow r] ;;
      print [AStr "Skipping row "; AInt (Z.of_nat idx);
             AStr ": Invalid VLAN ID "; AInt vlan; AStr "."]
  end.

(** The row of a record that has its four fields, and maybe more. *)
Definition full_row (venue_id ap_serial port_id vlan_id : string)
  (surplus : list string) : row :=
  dict_of_record FIELDNAMES (venue_id :: ap_serial :: port_id :: vlan_id :: surplus).

Lemma truthy_eqb (s : string) : negb (truthy s) = String.eqb s "".
Proof. destruct s; reflexivity. Qed.

Lemma in_range_negb (z : Z) :
  negb ((1 <=? z) && (z <=? 4094)) = (z <? 1) || (4094 <? z).
Proof.
  destruct (Z.leb_spec 1 z), (Z.leb_spec z 4094), (Z.ltb_spec z 1),
    (Z.ltb_spec 4094 z); cbn; try reflexivity; lia.
Qed.

Lemma full_row_lookup venue_id ap_serial port_id vlan_id surplus :
  let r := full_row venue_id ap_serial port_id vlan_id surplus in
  row_lookup "venue_id" r = Some (VStr venue_id) /\
  row_lookup "ap_serial" r = Some (VStr ap_serial) /\
  row_lookup "port_id" r = Some (VStr port_id) /\
  row_lookup "vlan_id" r = Some (VStr vlan_id).
Proof. repeat split. Qed.

Lemma process_row_full w tenant_id token idx venue_id ap_serial port_id vlan_id
  surplus tr :
  let r := full_row venue_id ap_serial port_id vlan_id surplus in
  process_row w tenant_id token idx r tr =
  carry_out w tenant_id token idx r
    (spec_validate venue_id ap_serial port_id vlan_id)
    (tr ++ [Log INFO "Processing row %d: %s" [AInt (Z.of_nat idx); ARow r]]).
Proof.
  intros r.
  destruct (full_row_lookup venue_id ap_serial port_id vlan_id surplus)
    as (Hv & Ha & Hp & Hl).
  fold r in Hv, Ha, Hp, Hl. clearbody r.
  unfold process_row, spec_validate, carry_out.
  unfold_py. rewrite Hv, Ha, Hp, Hl.
  destruct (int_of_str port_id) as [port|]; [|reflexivity].
  destruct (int_of_str vlan_id) as [vlan|]; [|reflexivity].
  rewrite !truthy_eqb, in_range_negb.
  destruct (String.eqb (strip venue_id) "" || String.eqb (strip ap_serial) "");
    [reflexivity|].
  destruct ((vlan <? 1) || (4094 <? vlan)); [reflexivity|].
  rewrite configure_ap_port_trace. reflexivity.
Qed.

Lemma carry_out_returns w tenant_id token idx r d tr :
  exists tr', carry_out w tenant_id token idx r d tr = (Ok tt, tr ++ tr').
Proof.
  destruct d; cbn [carry_out].
  - rewrite configure_ap_port_trace. eexists. reflexivity.
  - unfold_py. norm_trace. eexists. reflexivity.
  - unfold_py. norm_trace. eexists. reflexivity.
  - unfold_py. norm_trace. eexists. reflexivity.
Qed.

Lemma process_row_returns w tenant_id token idx venue_id ap_serial port_id
  vlan_id surplus tr :
  exists tr',
    process_row w tenant_id token idx
      (full_row venue_id ap_serial port_id vlan_id surplus) tr = (Ok tt, tr ++ tr').
Proof.
  rewrite process_row_full.
  match goal with |- context [carry_out ?w ?t ?k ?i ?r ?d ?tr] =>
    destruct (carry_out_returns w t k i r d tr) as (tr' & H) end.
  rewrite H. norm_trace. eexists. reflexivity.
Qed.


Example validation_parse_error_first :
  spec_validate "" "AP100" "x" "5000" = SkipParseError "x".
Proof. reflexivity. Qed.
Example validation_vlan_parse_error :
  spec_validate "V1" "AP100" "1" "ten" = SkipParseError "ten".
Proof. reflexivity. Qed.
Example validation_missing_before_range :
  spec_validate "  " "AP100" "1" "5000" = SkipMissing.
Proof. reflexivity. Qed.
Example validation_range :
  spec_validate "V2" "AP200" "2" "5000" = SkipInvalidVlan 5000.
Proof. reflexivity. Qed.
Example validation_valid :
  spec_validate " V1 " "AP100" "1" "10" = Valid "V1" "AP100" 1 10.
Proof. reflexivity. Qed.

(** The console line of a skipped row: [Skipping row <idx>: ...]. *)
Definition is_skip_line (idx : nat) (e : event) : bool :=
  match e with
  | Print (AStr s :: AInt i :: _) =>
      String.eqb s "Skipping row " && (i =? Z.of_nat idx)
  | _ => false
  end.

Lemma configure_report_no_http venue_id ap_serial port answer :
  filter is_http (configure_report venue_id ap_serial port answer) = [].
Proof.
  unfold configure_report. destruct answer as [d | r]; cbn; [reflexivity|].
  destruct ((400 <=? status_code r) && (status_code r <? 600)); reflexivity.
Qed.

Lemma vlan_present_full_record (record : list string) (s : string) :
  row_lookup "vlan_id" (dict_of_record FIELDNAMES record) = Some (VStr s) ->
  exists venue_id ap_serial port_id surplus,
    record = venue_id :: ap_serial :: port_id :: s :: surplus.
Proof.
  destruct record as [|v [|a [|p [|l surplus]]]]; cbn; intros H;
    try discriminate.
  injection H as ->. do 4 eexists. reflexivity.
Qed.

(** C2.  When the [vlan_id] of a row reads as an integer outside 1..4094,
    the loop body returns normally, sends no HTTP request and prints the
    line that tells the row is skipped. *)
Theorem vlan_out_of_range_skipped w tenant_id token idx record s z tr :
  row_lookup "vlan_id" (dict_of_record FIELDNAMES record) = Some (VStr s) ->
  int_of_str s = Some z ->
  z < 1 \/ 4094 < z ->
  exists tr',
    process_row w tenant_id token idx (dict_of_record FIELDNAMES record) tr
      = (Ok tt, tr ++ tr') /\
    existsb is_http tr' = false /\
    existsb (is_skip_line idx) tr' = true.
Proof.
  intros Hrow Hint Hz.
  destruct (vlan_present_full_record _ _ Hrow) as (v & a & p & surplus & ->).
  fold (full_row v a p s surplus). rewrite process_row_full.
  unfold spec_validate. rewrite Hint.
  assert (Hout : (z <? 1) || (4094 <? z) = true).
  { destruct Hz as [Hz | Hz]; [apply Z.ltb_lt in Hz | apply Z.ltb_lt in Hz];
      rewrite Hz; auto using orb_true_r. }
  rewrite Hout.
  destruct (int_of_str p) as [port|];
    [destruct (String.eqb (strip v) "" || String.eqb (strip a) "")|];
    cbn [carry_out]; unfold_py; norm_trace;
    (eexists; split; [reflexivity|]); cbn;
    rewrite Z.eqb_refl; split; reflexivity.
Qed.

(** ** Worlds for the examples *)

Definition nl : string := String "010" EmptyString.

Definition token_response (status : Z) : response :=
  {| status_code := status;
     text := "{'access_token': 'tok'}";
     body := Some (JObj [("access_token", JStr "tok")]) |}.

(** A server that answers the token request with [auth] and every
    configuration request with [put]. *)
Definition server_of (auth put : reply) (history : list event) : reply :=
  match last history (Stderr "") with
  | HttpPost _ _ _ => auth
  | _ => put
  end.

Definition plain_response (status : Z) : reply :=
  Responded {| status_code := status; text := ""; body := None |}.

Definition world_of (args : list string) (creds : option (os_error + list string))
  (auth put : reply) (file : os_error + list string) : world :=
  {| argv := args;
     credentials := creds;
     operator := fun _ => "";
     server := server_of auth put;
     json_error_is_request_exception := true;
     csv := file |}.

Definition three_lines : option (os_error + list string) :=
  Some (inr ["tenant" ++ nl; "client" ++ nl; "secret" ++ nl])%string.

(** The scenario of the specification: a header comment, a valid row and
    a row with VLAN 5000, on a server that accepts everything. *)
Definition scenario_world : world :=
  world_of ["r1portvlan.py"; "ports.csv"] three_lines
    (Responded (token_response 200)) (plain_response 200)
    (inr ["#header" ++ nl; "V1,AP100,1,10" ++ nl; "V2,AP200,2,5000" ++ nl])%string.

Lemma vlan_out_of_range_skipped_witness :
  exists tr',
    process_row scenario_world "tenant" (JStr "tok") 2
      (dict_of_record FIELDNAMES ["V2"; "AP200"; "2"; "5000"]) []
      = (Ok tt, [] ++ tr') /\
    existsb is_http tr' = false /\
    existsb (is_skip_line 2) tr' = true.
Proof.
  apply (vlan_out_of_range_skipped scenario_world "tenant" (JStr "tok") 2
           ["V2"; "AP200"; "2"; "5000"] "5000" 5000 []).
  - reflexivity.
  - reflexivity.
  - right. reflexivity.
Defined.

(** ** Valid rows *)

Lemma process_row_valid w tenant_id token idx venue_id ap_serial port_id vlan_id
  surplus port vlan tr :
  truthy (strip venue_id) = true ->
  truthy (strip ap_serial) = true ->
  int_of_str port_id = Some port ->
  int_of_str vlan_id = Some vlan ->
  1 <= vlan <= 4094 ->
  let r := full_row venue_id ap_serial port_id vlan_id surplus in
  let before := tr ++ Log INFO "Processing row %d: %s" [AInt (Z.of_nat idx); ARow r]
                   :: configure_request (strip venue_id) (strip ap_serial) port vlan token in
  process_row w tenant_id token idx r tr =
  (Ok tt,
   before ++ configure_report (strip venue_id) (strip ap_serial) port
               (server w before)).
Proof.
  intros Hv Ha Hp Hl Hrange r before. unfold r.
  rewrite process_row_full. unfold spec_validate. rewrite Hp, Hl.
  destruct (strip venue_id); [discriminate|].
  destruct (strip ap_serial); [discriminate|].
  cbn [String.eqb orb].
  replace ((vlan <? 1) || (4094 <? vlan)) with false
    by (symmetry; apply orb_false_iff; split; apply Z.ltb_ge; lia).
  cbn [carry_out]. rewrite configure_ap_port_trace.
  unfold before, r. norm_trace. reflexivity.
Qed.

(** C6.  For a valid row (its trimmed [venue_id] and [ap_serial] are not
    empty, [port_id] reads as an integer and [vlan_id] as an integer in
    1..4094) the loop body returns normally and the one HTTP request among
    its events is a PUT to
    [/venues/<venue_id>/aps/<ap_serial>/lanPorts/<port_id>/settings] of the
    API host, with the bearer token in its [Authorization] header and the
    JSON body [{useVenueSettings: false, enabled: true, overwriteUntagId:
    vlan_id, overwriteVlanMembers: str(vlan_id)}]. *)
Theorem valid_row_one_put w tenant_id token idx venue_id ap_serial port_id vlan_id
  surplus port vlan tr :
  truthy (strip venue_id) = true ->
  truthy (strip ap_serial) = true ->
  int_of_str port_id = Some port ->
  int_of_str vlan_id = Some vlan ->
  1 <= vlan <= 4094 ->
  exists tr',
    process_row w tenant_id token idx
      (full_row venue_id ap_serial port_id vlan_id surplus) tr
      = (Ok tt, tr ++ tr') /\
    filter is_http tr' =
      [HttpPut
         ("https://api.ruckus.cloud/venues/" ++ strip venue_id ++ "/aps/"
            ++ strip ap_serial ++ "/lanPorts/" ++ str_of_Z port ++ "/settings")%string
         [("Authorization", HBearer token);
          ("Content-Type", HLit "application/json")]
         (JObj [("useVenueSettings", JBool false);
                ("enabled", JBool true);
                ("overwriteUntagId", JNum vlan);
                ("overwriteVlanMembers", JStr (str_of_Z vlan))])].
Proof.
  intros Hv Ha Hp Hl Hrange.
  rewrite (process_row_valid w tenant_id token idx _ _ _ _ surplus port vlan tr
             Hv Ha Hp Hl Hrange).
  cbv zeta. norm_trace. eexists. split; [reflexivity|].
  unfold configure_request. cbn [app filter is_http].
  rewrite configure_report_no_http. reflexivity.
Qed.

Lemma valid_row_one_put_witness :
  exists tr',
    process_row scenario_world "tenant" (JStr "tok") 1
      (full_row "V1" "AP100" "1" "10" []) [] = (Ok tt, [] ++ tr') /\
    filter is_http tr' =
      [HttpPut
         ("https://api.ruckus.cloud/venues/" ++ strip "V1" ++ "/aps/"
            ++ strip "AP100" ++ "/lanPorts/" ++ str_of_Z 1 ++ "/settings")%string
         [("Authorization", HBearer (JStr "tok"));
          ("Content-Type", HLit "application/json")]
         (JObj [("useVenueSettings", JBool false);
                ("enabled", JBool true);
                ("overwriteUntagId", JNum 10);
                ("overwriteVlanMembers", JStr (str_of_Z 10))])].
Proof.
  apply (valid_row_one_put scenario_world "tenant" (JStr "tok") 1
           "V1" "AP100" "1" "10" [] 1 10 []);
    [reflexivity | reflexivity | reflexivity | reflexivity | lia].
Defined.

(** C10.  No range is imposed on [port_id]: for a row with its four
    fields, trimmed identifiers that are not empty and a [vlan_id] in
    1..4094, whatever integer [port_id] reads as (zero, negative, of any
    size), the loop body sends the PUT request, and the path of the request
    carries that integer, written by [str], as the segment after
    [lanPorts]. *)
Theorem any_port_is_configured w tenant_id token idx venue_id ap_serial port_id
  vlan_id surplus (port : Z) vlan tr :
  truthy (strip venue_id) = true ->
  truthy (strip ap_serial) = true ->
  int_of_str port_id = Some port ->
  int_of_str vlan_id = Some vlan ->
  1 <= vlan <= 4094 ->
  exists tr',
    process_row w tenant_id token idx
      (full_row venue_id ap_serial port_id vlan_id surplus) tr
      = (Ok tt, tr ++ tr') /\
    In (HttpPut
          ("https://api.ruckus.cloud/venues/" ++ strip venue_id ++ "/aps/"
             ++ strip ap_serial ++ "/lanPorts/" ++ str_of_Z port ++ "/settings")%string
          [("Authorization", HBearer token);
           ("Content-Type", HLit "application/json")]
          (JObj [("useVenueSettings", JBool false);
                 ("enabled", JBool true);
                 ("overwriteUntagId", JNum vlan);
                 ("overwriteVlanMembers", JStr (str_of_Z vlan))])) tr'.
Proof.
  intros Hv Ha Hp Hl Hrange.
  rewrite (process_row_valid w tenant_id token idx _ _ _ _ surplus port vlan tr
             Hv Ha Hp Hl Hrange).
  cbv zeta. norm_trace. eexists. split; [reflexivity|].
  unfold configure_request. cbn [In app]. right. right. left. reflexivity.
Qed.

Lemma any_port_is_configured_witness :
  exists tr',
    process_row scenario_world "tenant" (JStr "tok") 1
      (full_row "V1" "AP100" "-99999999999999999999" "10" []) []
      = (Ok tt, [] ++ tr') /\
    In (HttpPut
          ("https://api.ruckus.cloud/venues/" ++ strip "V1" ++ "/aps/"
             ++ strip "AP100" ++ "/lanPorts/" ++ str_of_Z (-99999999999999999999)
             ++ "/settings")%string
          [("Authorization", HBearer (JStr "tok"));
           ("Content-Type", HLit "application/json")]
          (JObj [("useVenueSettings", JBool false);
                 ("enabled", JBool true);
                 ("overwriteUntagId", JNum 10);
                 ("overwriteVlanMembers", JStr (str_of_Z 10))])) tr'.
Proof.
  apply (any_port_is_configured scenario_world "tenant" (JStr "tok") 1
           "V1" "AP100" "-99999999999999999999" "10" []
           (-99999999999999999999) 10 []);
    [reflexivity | reflexivity | reflexivity | reflexivity | lia].
Defined.

Example port_zero_in_path :
  port_settings_url "V1" "AP100" 0
  = "https://api.ruckus.cloud/venues/V1/aps/AP100/lanPorts/0/settings".
Proof. reflexivity. Qed.

Example port_negative_in_path :
  port_settings_url "V1" "AP100" (-3)
  = "https://api.ruckus.cloud/venues/V1/aps/AP100/lanPorts/-3/settings".
Proof. reflexivity. Qed.

(** ** [get_bearer_token] *)

(** The two events up to the token request. *)
Definition auth_request (tenant_id client_id client_secret : string) : list event :=
  [Log INFO "Requesting JWT token from %s" [AStr (auth_url tenant_id)];
   HttpPost (auth_url tenant_id)
     [("Content-Type", HLit "application/x-www-form-urlencoded")]
     [("grant_type", "client_credentials");
      ("client_id", client_id);
      ("client_secret", client_secret);
      ("audience", "https://api.ruckus.cloud")]].

Definition auth_failed : exn :=
  SystemExit (ExitMsg "Authentication failed. Check app.log for details.").

Definition no_access_token : exn :=
  SystemExit (ExitMsg "Authentication failed: No access_token in response.").

(** The result of [get_bearer_token] and its events after the request, by
    the answer of the server. *)
Definition auth_result (json_is_req : bool) (answer : reply)
  : result json * list event :=
  let failed e := (Raise auth_failed,
                   [Log ERROR "Authentication failed: %s" [AExn e]]) in
  match answer with
  | NoResponse detail => failed (RequestException (ConnectionError detail))
  | Responded r =>
      let '(res, evs) :=
        if (400 <=? status_code r) && (status_code r <? 600)
        then failed (RequestException (HTTPError (status_code r)))
        else match body r with
             | None =>
                 if json_is_req then failed (RequestException JSONDecodeError)
                 else (Raise (RequestException JSONDecodeError), [])
             | Some (JObj d) =>
                 if json_truthy (dict_get "access_token" d)
                 then (Ok (dict_get "access_token" d),
                       [Log INFO "Successfully obtained JWT token." []])
                 else (Raise no_access_token,
                       [Log ERROR "No access_token in response: %s" [AStr (text r)]])
             | Some _ => (Raise (AttributeError "get"), [])
             end in
      (res, Log INFO "Auth response: %s %s"
                [AInt (status_code r); AStr (text r)] :: evs)
  end.

Lemma get_bearer_token_trace w tenant_id client_id client_secret tr :
  let before := tr ++ auth_request tenant_id client_id client_secret in
  let out := auth_result (json_error_is_request_exception w) (server w before) in
  get_bearer_token w tenant_id client_id client_secret tr
  = (fst out, before ++ snd out).
Proof.
  cbv zeta. unfold get_bearer_token, auth_request, auth_result, auth_failed,
    no_access_token.
  unfold_py. norm_trace.
  destruct (server w _) as [detail | r]; cbn.
  { norm_trace. reflexivity. }
  destruct ((400 <=? status_code r) && (status_code r <? 600)); cbn.
  { norm_trace. reflexivity. }
  destruct (body r) as [j|]; cbn.
  2:{ destruct (json_error_is_request_exception w); cbn; norm_trace; reflexivity. }
  destruct j; cbn; norm_trace; try reflexivity.
  destruct (json_truthy (dict_get "access_token" fields)); cbn; norm_trace;
    reflexivity.
Qed.

(** The events of one row: the log line that opens it, and a PUT. *)
Definition is_row_event (e : event) : bool :=
  match e with
  | Log _ fmt _ => String.eqb fmt "Processing row %d: %s"
  | HttpPut _ _ _ => true
  | _ => false
  end.

Lemma auth_result_no_row_event json_is_req answer :
  existsb is_row_event (snd (auth_result json_is_req answer)) = false.
Proof.
  unfold auth_result. destruct answer as [detail | r]; [reflexivity|].
  destruct ((400 <=? status_code r) && (status_code r <? 600)); [reflexivity|].
  destruct (body r) as [j|]; [|destruct json_is_req; reflexivity].
  destruct j; try reflexivity.
  destruct (json_truthy _); reflexivity.
Qed.

(** [get_bearer_token] leaves with [sys.exit(<message>)] or with an
    exception that is no [SystemExit]: never with an exit code of its own. *)
Definition exits_with_1 (e : exn) : bool :=
  match e with
  | SystemExit (ExitCode n) => n =? 1
  | _ => true
  end.

Lemma auth_result_raise json_is_req answer e :
  fst (auth_result json_is_req answer) = Raise e -> exits_with_1 e = true.
Proof.
  unfold auth_result. destruct answer as [detail | r]; cbn.
  { intros [= <-]. reflexivity. }
  destruct ((400 <=? status_code r) && (status_code r <? 600)); cbn.
  { intros [= <-]. reflexivity. }
  destruct (body r) as [j|]; cbn.
  2:{ destruct json_is_req; cbn; intros [= <-]; reflexivity. }
  destruct j; cbn; try (intros [= <-]; reflexivity).
  destruct (json_truthy _); cbn; [discriminate | intros [= <-]; reflexivity].
Qed.

(** ** [load_credentials] *)

Definition credentials_short : exn :=
  SystemExit (ExitMsg "Credentials file must have at least 3 lines: Tenant ID, Client ID, Client Secret.").

Definition credentials_unreadable : exn :=
  SystemExit (ExitMsg "Error reading credentials file. Check app.log for details.").

Definition credentials_missing_input : exn :=
  SystemExit (ExitMsg "Tenant ID, Client ID, and Client Secret are required.").

(** The events of reading the credentials file, up to its opening. *)
Definition credentials_opening : list event :=
  [IsFile "credentials";
   Log INFO "Loading credentials from file: %s" [AStr "credentials"];
   Open "credentials"].

Lemma load_credentials_file w lines tr :
  credentials w = Some (inr lines) ->
  load_credentials w tr =
  if (3 <=? length lines)%nat
  then (Ok (strip (nth 0 lines ""), strip (nth 1 lines ""), strip (nth 2 lines "")),
        tr ++ credentials_opening)
  else (Raise credentials_short,
        tr ++ credentials_opening
           ++ [Log ERROR "Credentials file missing required lines." []]).
Proof.
  intros H. unfold load_credentials, credentials_opening, credentials_short.
  unfold_py. rewrite H.
  destruct lines as [|l0 [|l1 [|l2 rest]]]; cbn; norm_trace; reflexivity.
Qed.

Lemma load_credentials_unreadable w e tr :
  credentials w = Some (inl e) ->
  load_credentials w tr =
  (Raise credentials_unreadable,
   tr ++ credentials_opening
      ++ [Log ERROR "Error reading credentials file: %s" [AExn (OSError e)]]).
Proof.
  intros H. unfold load_credentials, credentials_opening, credentials_unreadable.
  unfold_py. rewrite H. cbn. norm_trace. reflexivity.
Qed.

(** The events of asking the operator. *)
Definition credentials_prompts : list event :=
  [IsFile "credentials";
   Log INFO "Prompting user for credentials." [];
   Input "Enter Tenant ID: ";
   Input "Enter Client ID: ";
   Input "Enter Client Secret: "].

Lemma load_credentials_prompt w tr :
  credentials w = None ->
  let t := operator w "Enter Tenant ID: " in
  let c := operator w "Enter Client ID: " in
  let s := operator w "Enter Client Secret: " in
  load_credentials w tr =
  if truthy t && truthy c && truthy s
  then (Ok (t, c, s), tr ++ credentials_prompts)
  else (Raise credentials_missing_input,
        tr ++ credentials_prompts
           ++ [Log ERROR "Missing credential input from user." []]).
Proof.
  intros H. cbv zeta.
  unfold load_credentials, credentials_prompts, credentials_missing_input.
  unfold_py. rewrite H. cbn.
  destruct (truthy (operator w "Enter Tenant ID: ")
            && truthy (operator w "Enter Client ID: ")
            && truthy (operator w "Enter Client Secret: "));
    cbn; norm_trace; reflexivity.
Qed.

(** Whatever the credentials source is, loading them neither sends a
    request nor touches a row, and it fails only by [sys.exit(<message>)]. *)
Lemma load_credentials_events w tr :
  exists evs,
    snd (load_credentials w tr) = tr ++ evs /\
    existsb is_http evs = false /\
    existsb is_row_event evs = false /\
    (forall e, fst (load_credentials w tr) = Raise e -> exits_with_1 e = true).
Proof.
  destruct (credentials w) as [[e | lines]|] eqn:H.
  - rewrite (load_credentials_unreadable w e tr H). eexists.
    split; [reflexivity|]. repeat split. intros ? [= <-]. reflexivity.
  - rewrite (load_credentials_file w lines tr H).
    destruct (3 <=? length lines)%nat; eexists; (split; [reflexivity|]);
      repeat split; try discriminate; intros ? [= <-]; reflexivity.
  - rewrite (load_credentials_prompt w tr H).
    destruct (_ && _); eexists; (split; [reflexivity|]);
      repeat split; try discriminate; intros ? [= <-]; reflexivity.
Qed.

(** ** The loop over the rows *)

(** A record that [csv.reader] hands on as a row with its four fields, or
    that [DictReader] passes over. *)
Definition empty_or_full (record : list string) : bool :=
  is_empty_record record || (4 <=? length record)%nat.

Lemma full_record_row (record : list string) :
  (4 <=? length record)%nat = true ->
  exists v a p l surplus, dict_of_record FIELDNAMES record = full_row v a p l surplus.
Proof.
  destruct record as [|v [|a [|p [|l surplus]]]]; try discriminate.
  intros _. do 5 eexists. reflexivity.
Qed.

Lemma process_row_next w tenant_id token idx v a p l surplus rest tr :
  exists tr',
    process_row w tenant_id token idx (full_row v a p l surplus) tr
      = (Ok tt, tr ++ tr') /\
    for_rows w tenant_id token idx (full_row v a p l surplus :: rest) tr
      = for_rows w tenant_id token (S idx) rest (tr ++ tr').
Proof.
  destruct (process_row_returns w tenant_id token idx v a p l surplus tr)
    as (tr' & H).
  exists tr'. split; [exact H|].
  cbn [for_rows]. unfold bind at 1. rewrite H. reflexivity.
Qed.

Lemma for_rows_returns w tenant_id token records :
  forallb empty_or_full records = true ->
  forall idx tr, exists tr',
    for_rows w tenant_id token idx (DictReader records FIELDNAMES) tr
      = (Ok tt, tr ++ tr').
Proof.
  unfold DictReader.
  induction records as [|record rest IH]; intros Hall idx tr.
  - exists []. cbn. rewrite app_nil_r. reflexivity.
  - cbn [forallb] in Hall. apply andb_true_iff in Hall as [Hrec Hrest].
    cbn [filter]. destruct record as [|f fs] eqn:E.
    + cbn [is_empty_record negb]. apply IH. exact Hrest.
    + cbn [is_empty_record negb map]. rewrite <- E in *.
      unfold empty_or_full in Hrec. rewrite E in Hrec at 1.
      cbn [is_empty_record orb] in Hrec.
      destruct (full_record_row record Hrec) as (v & a & p & l & surplus & ->).
      destruct (process_row_next w tenant_id token idx v a p l surplus
                  (map (dict_of_record FIELDNAMES)
                     (filter (fun r => negb (is_empty_record r)) rest)) tr)
        as (tr1 & _ & ->).
      destruct (IH Hrest (S idx) (tr ++ tr1)) as (tr2 & ->).
      exists (tr1 ++ tr2). norm_trace. reflexivity.
Qed.

(** ** [main] and the exit status *)

Definition usage_events : list event :=
  [Print [AStr "Usage: python configure_ap_ports.py <filename.csv>"];
   Log ERROR "Incorrect usage: missing CSV filename argument." []].

Section Runs.

Variable csv_reader : list string -> list (list string).

Lemma main_usage w tr :
  length (argv w) <> 2%nat ->
  main csv_reader w tr = (Raise (SystemExit (ExitCode 1)), tr ++ usage_events).
Proof.
  intros H. unfold main. apply Nat.eqb_neq in H. rewrite H. cbn [negb].
  unfold_py. norm_trace. reflexivity.
Qed.

Lemma main_steps w tr :
  length (argv w) = 2%nat ->
  main csv_reader w tr =
  bind (load_credentials w)
    (fun c => let '(tenant_id, client_id, client_secret) := c in
      bind (get_bearer_token w tenant_id client_id client_secret)
        (fun token =>
           process_csv csv_reader w (nth 1 (argv w) "") tenant_id token)) tr.
Proof. intros H. unfold main. rewrite H. reflexivity. Qed.

Lemma run_raise w e tr :
  main csv_reader w [] = (Raise e, tr) ->
  exits_with_1 e = true ->
  exit_status csv_reader w = 1 /\
  exists last, trace csv_reader w = tr ++ last /\ existsb is_row_event last = false
               /\ existsb is_http last = false.
Proof.
  intros H He. unfold exit_status, trace, run. rewrite H.
  destruct e as [[n | msg] | | | | | |]; cbn in He |- *;
    try (split; [reflexivity | eexists; repeat split; reflexivity]).
  apply Z.eqb_eq in He. subst n.
  split; [reflexivity|]. exists []. rewrite app_nil_r. repeat split.
Qed.

Lemma process_csv_missing w csv_file tenant_id token e tr :
  csv w = inl e ->
  exists evs,
    process_csv csv_reader w csv_file tenant_id token tr
      = (Raise (SystemExit (ExitCode 1)), tr ++ Open csv_file :: evs) /\
    existsb is_row_event evs = false.
Proof.
  intros H. unfold process_csv. unfold_py. rewrite H.
  destruct e as [|detail]; cbn; norm_trace; eexists; split; reflexivity.
Qed.

Lemma process_csv_returns w csv_file tenant_id token lines tr :
  csv w = inr lines ->
  forallb empty_or_full (csv_reader (skip_comments lines)) = true ->
  exists tr',
    process_csv csv_reader w csv_file tenant_id token tr = (Ok tt, tr ++ tr').
Proof.
  intros H Hall. unfold process_csv.
  destruct (for_rows_returns w tenant_id token _ Hall 1%nat
              (tr ++ [Open csv_file; Log INFO "Opened CSV file: %s" [AStr csv_file]]))
    as (tr' & Hrows).
  eexists. apply try_except_Ok.
  unfold_py. rewrite H. norm_trace. rewrite Hrows. norm_trace. reflexivity.
Qed.

End Runs.

(** ** Authentication *)

Lemma dict_has_get (k : string) (d : list (string * json)) :
  dict_has k d = false -> dict_get k d = JNull.
Proof.
  induction d as [|[k' v] rest IH]; cbn; [reflexivity|].
  destruct (String.eqb k k'); cbn; [discriminate | exact IH].
Qed.

Lemma auth_result_ok json_is_req answer token :
  fst (auth_result json_is_req answer) = Ok token ->
  exists r d,
    answer = Responded r /\
    ~ (400 <= status_code r < 600) /\
    body r = Some (JObj d) /\
    token = dict_get "access_token" d /\
    json_truthy token = true.
Proof.
  unfold auth_result. destruct answer as [detail | r]; cbn; [discriminate|].
  destruct ((400 <=? status_code r) && (status_code r <? 600)) eqn:Hs; cbn;
    [discriminate|].
  destruct (body r) as [j|] eqn:Hb; cbn;
    [|destruct json_is_req; discriminate].
  destruct j; cbn; try discriminate.
  destruct (json_truthy (dict_get "access_token" fields)) eqn:Ht; cbn;
    [|discriminate].
  intros [= <-]. exists r, fields. repeat split; try assumption; try reflexivity.
  intros [H1 H2]. apply Z.leb_le in H1. apply Z.ltb_lt in H2.
  rewrite H1, H2 in Hs. discriminate.
Qed.

Lemma auth_result_error_status json_is_req r :
  400 <= status_code r < 600 ->
  fst (auth_result json_is_req (Responded r)) = Raise auth_failed.
Proof.
  intros [H1 H2]. apply Z.leb_le in H1. apply Z.ltb_lt in H2.
  unfold auth_result. rewrite H1, H2. reflexivity.
Qed.

Lemma auth_result_no_token json_is_req r d :
  body r = Some (JObj d) ->
  dict_has "access_token" d = false ->
  fst (auth_result json_is_req (Responded r)) = Raise auth_failed \/
  fst (auth_result json_is_req (Responded r)) = Raise no_access_token.
Proof.
  intros Hb Hd. unfold auth_result. rewrite Hb, (dict_has_get _ _ Hd).
  destruct ((400 <=? status_code r) && (status_code r <? 600)); cbn; auto.
Qed.

Lemma auth_failure_ends_run (csv_reader : list string -> list (list string))
  w tenant_id client_id client_secret tr e tr' :
  length (argv w) = 2%nat ->
  load_credentials w [] = (Ok (tenant_id, client_id, client_secret), tr) ->
  get_bearer_token w tenant_id client_id client_secret tr = (Raise e, tr') ->
  exit_status csv_reader w = 1 /\
  existsb is_row_event (trace csv_reader w) = false.
Proof.
  intros Hargv Hload Hauth.
  assert (Hmain : main csv_reader w [] = (Raise e, tr')).
  { rewrite main_steps by assumption.
    rewrite (bind_Ok _ _ _ _ _ Hload). apply bind_Raise. exact Hauth. }
  rewrite get_bearer_token_trace in Hauth. cbv zeta in Hauth.
  injection Hauth as He Htr.
  destruct (run_raise csv_reader w e tr' Hmain (auth_result_raise _ _ _ He))
    as (Hexit & last & Hlast & Hrow_last & _).
  split; [exact Hexit|]. rewrite Hlast.
  destruct (load_credentials_events w []) as (evs & Hevs & _ & Hrow & _).
  rewrite Hload in Hevs. cbn in Hevs. subst tr tr'.
  rewrite !existsb_app, Hrow, Hrow_last, auth_result_no_row_event. reflexivity.
Qed.

(** C4 (amended).  [get_bearer_token] returns a token only when the
    server answered with a status outside 400..599 and a JSON object, and
    the token is the [access_token] of that object; it leaves by [sys.exit]
    on a transport error, on a status of 400..599, and when the object has
    no [access_token].  When it leaves in any way but a return, the run
    ends there with exit status 1: no row is logged and no PUT is sent. *)
Theorem authentication_outcome (csv_reader : list string -> list (list string))
  w tenant_id client_id client_secret tr :
  let before := tr ++ auth_request tenant_id client_id client_secret in
  let auth := get_bearer_token w tenant_id client_id client_secret tr in
  (forall token tr', auth = (Ok token, tr') ->
     exists r d,
       server w before = Responded r /\
       ~ (400 <= status_code r < 600) /\
       body r = Some (JObj d) /\
       token = dict_get "access_token" d /\
       json_truthy token = true) /\
  (forall detail, server w before = NoResponse detail ->
     fst auth = Raise auth_failed) /\
  (forall r, server w before = Responded r -> 400 <= status_code r < 600 ->
     fst auth = Raise auth_failed) /\
  (forall r d, server w before = Responded r -> body r = Some (JObj d) ->
     dict_has "access_token" d = false ->
     fst auth = Raise auth_failed \/ fst auth = Raise no_access_token) /\
  (forall e tr',
     length (argv w) = 2%nat ->
     load_credentials w [] = (Ok (tenant_id, client_id, client_secret), tr) ->
     auth = (Raise e, tr') ->
     exit_status csv_reader w = 1 /\
     existsb is_row_event (trace csv_reader w) = false).
Proof.
  cbv zeta. rewrite get_bearer_token_trace. cbv zeta. cbn [fst].
  split; [|split; [|split; [|split]]].
  - intros token tr' [= H _]. exact (auth_result_ok _ _ _ H).
  - intros detail ->. reflexivity.
  - intros r -> Hs. apply auth_result_error_status. exact Hs.
  - intros r d -> Hb Hd. apply (auth_result_no_token _ r d); assumption.
  - intros e tr' Hargv Hload Hauth.
    apply (auth_failure_ends_run csv_reader w tenant_id client_id client_secret
             tr e tr' Hargv Hload).
    rewrite get_bearer_token_trace. exact Hauth.
Qed.

(** The server refuses the credentials: the run ends before the CSV. *)
Definition world_auth_401 : world :=
  world_of ["r1portvlan.py"; "ports.csv"] three_lines
    (plain_response 401) (plain_response 200)
    (inr ["V1,AP100,1,10" ++ nl])%string.

Lemma authentication_outcome_witness :
  exit_status plain_csv_reader world_auth_401 = 1 /\
  existsb is_row_event (trace plain_csv_reader world_auth_401) = false.
Proof.
  refine (proj2 (proj2 (proj2 (proj2
            (authentication_outcome plain_csv_reader world_auth_401
               "tenant" "client" "secret" credentials_opening))))
          auth_failed _ _ _ _);
    reflexivity.
Defined.

(** The server answers the token request with status 300 and a body that
    holds a token. *)
Definition world_auth_300 : world :=
  world_of ["r1portvlan.py"; "ports.csv"] three_lines
    (Responded (token_response 300)) (plain_response 200)
    (inr ["V1,AP100,1,10" ++ nl])%string.

(** C4, as stated, fails: on a response whose status, 300, is not of the
    2xx class, [get_bearer_token] returns the token of the body, and the run
    goes on to configure the row of the CSV and ends with exit status 0. *)
Lemma auth_status_300_returns_token :
  server world_auth_300 (credentials_opening ++ auth_request "tenant" "client" "secret")
    = Responded (token_response 300) /\
  (200 <=? status_code (token_response 300)) && (status_code (token_response 300) <=? 299)
    = false /\
  fst (get_bearer_token world_auth_300 "tenant" "client" "secret" credentials_opening)
    = Ok (JStr "tok") /\
  exit_status plain_csv_reader world_auth_300 = 0 /\
  existsb is_put (trace plain_csv_reader world_auth_300) = true.
Proof. repeat split. Qed.

(** ** Failed configuration requests *)

(** The answers that [configure_ap_port] takes as a failure. *)
Definition is_failure (answer : reply) : bool :=
  match answer with
  | NoResponse _ => true
  | Responded r => (400 <=? status_code r) && (status_code r <? 600)
  end.

Definition is_failed_log (e : event) : bool :=
  match e with
  | Log ERROR fmt _ =>
      String.eqb fmt "Failed to configure port %s on %s at venue %s: %s"
  | _ => false
  end.

Definition is_failed_line (e : event) : bool :=
  match e with
  | Print (AStr s :: _) => String.eqb s "Failed to configure port "
  | _ => false
  end.

Definition is_configured_line (e : event) : bool :=
  match e with
  | Print (AStr s :: _) => String.eqb s "Configured AP "
  | _ => false
  end.

Lemma configure_report_failure venue_id ap_serial port answer :
  is_failure answer = true ->
  existsb is_failed_log (configure_report venue_id ap_serial port answer) = true /\
  existsb is_failed_line (configure_report venue_id ap_serial port answer) = true /\
  existsb is_configured_line (configure_report venue_id ap_serial port answer) = false.
Proof.
  unfold configure_report, is_failure. destruct answer as [detail | r].
  - intros _. repeat split.
  - intros ->. repeat split.
Qed.

(** C7 (amended).  [configure_ap_port] always returns normally.  When the
    request met a transport error or a response with a status of 400..599,
    the row is logged and printed as failed and not as configured.
    Whatever the answer, the loop goes on with the next row, and a run that
    has its credentials and its token and reads a CSV whose records all have
    four fields ends with exit status 0. *)
Theorem failed_request_does_not_stop_the_run
  (csv_reader : list string -> list (list string))
  w tenant_id venue_id ap_serial port vlan_id token tr :
  let before := tr ++ configure_request venue_id ap_serial port vlan_id token in
  let call := configure_ap_port w tenant_id venue_id ap_serial port vlan_id token tr in
  (exists tr', call = (Ok tt, tr ++ tr')) /\
  (is_failure (server w before) = true ->
   exists tr', call = (Ok tt, tr ++ tr') /\
     existsb is_failed_log tr' = true /\
     existsb is_failed_line tr' = true /\
     existsb is_configured_line tr' = false) /\
  (forall idx v a p l surplus rest, exists tr',
     process_row w tenant_id token idx (full_row v a p l surplus) tr
       = (Ok tt, tr ++ tr') /\
     for_rows w tenant_id token idx (full_row v a p l surplus :: rest) tr
       = for_rows w tenant_id token (S idx) rest (tr ++ tr')) /\
  (forall client_id client_secret tr0 tr1 lines,
     length (argv w) = 2%nat ->
     load_credentials w [] = (Ok (tenant_id, client_id, client_secret), tr0) ->
     get_bearer_token w tenant_id client_id client_secret tr0 = (Ok token, tr1) ->
     csv w = inr lines ->
     forallb empty_or_full (csv_reader (skip_comments lines)) = true ->
     exit_status csv_reader w = 0).
Proof.
  cbv zeta. rewrite configure_ap_port_trace.
  split; [|split; [|split]].
  - eexists. reflexivity.
  - intros Hfail. eexists. split; [reflexivity|].
    destruct (configure_report_failure venue_id ap_serial port _ Hfail)
      as (Hlog & Hline & Hconf).
    rewrite !existsb_app, Hlog, Hline, Hconf. repeat split.
  - intros. apply process_row_next.
  - intros client_id client_secret tr0 tr1 lines Hargv Hload Hauth Hcsv Hall.
    destruct (process_csv_returns csv_reader w (nth 1 (argv w) "") tenant_id
                token lines tr1 Hcsv Hall) as (tr' & Hrows).
    unfold exit_status, run.
    rewrite main_steps by assumption.
    rewrite (bind_Ok _ _ _ _ _ Hload), (bind_Ok _ _ _ _ _ Hauth), Hrows.
    reflexivity.
Qed.

(** The scenario of the specification: the server answers the
    configuration requests with status 500. *)
Definition world_put_500 : world :=
  world_of ["r1portvlan.py"; "ports.csv"] three_lines
    (Responded (token_response 200)) (plain_response 500)
    (inr ["V1,AP100,1,10" ++ nl; "V2,AP200,2,20" ++ nl])%string.

Lemma failed_request_does_not_stop_the_run_witness :
  exit_status plain_csv_reader world_put_500 = 0.
Proof.
  refine (proj2 (proj2 (proj2
            (failed_request_does_not_stop_the_run plain_csv_reader world_put_500
               "tenant" "V1" "AP100" 1 10 (JStr "tok") [])))
          "client" "secret" _ _ _ _ _ _ _ _);
    reflexivity.
Defined.

Example both_rows_sent_on_status_500 :
  map (fun e => match e with HttpPut url _ _ => url | _ => "" end)
      (filter is_put (trace plain_csv_reader world_put_500))
  = ["https://api.ruckus.cloud/venues/V1/aps/AP100/lanPorts/1/settings";
     "https://api.ruckus.cloud/venues/V2/aps/AP200/lanPorts/2/settings"]
  /\ length (filter is_failed_line (trace plain_csv_reader world_put_500)) = 2%nat.
Proof. split; reflexivity. Qed.

(** The server answers the configuration request with status 300. *)
Definition world_put_300 : world :=
  world_of ["r1portvlan.py"; "ports.csv"] three_lines
    (Responded (token_response 200)) (plain_response 300)
    (inr ["V1,AP100,1,10" ++ nl])%string.

(** C7, as stated, fails: a response of status 300 is no 2xx response,
    and the row is logged and printed as configured, not as failed. *)
Lemma put_status_300_reported_configured :
  server world_put_300 (configure_request "V1" "AP100" 1 10 (JStr "tok"))
    = plain_response 300 /\
  (200 <=? 300) && (300 <=? 299) = false /\
  exists tr,
    configure_ap_port world_put_300 "tenant" "V1" "AP100" 1 10 (JStr "tok") []
      = (Ok tt, tr) /\
    existsb is_failed_log tr = false /\
    existsb is_failed_line tr = false /\
    existsb is_configured_line tr = true.
Proof.
  split; [reflexivity|]. split; [reflexivity|].
  eexists. split; [reflexivity|]. repeat split.
Qed.

(** ** The credentials file *)

(** C8 (amended).  A credentials file that can be read gives the
    credentials when it has at least three lines, whatever they hold: the
    first three, trimmed, are the tenant id, the client id and the client
    secret.  With fewer than three lines the run logs the error and exits
    with the diagnostic and status 1, and no HTTP request was sent. *)
Theorem credentials_file_three_lines
  (csv_reader : list string -> list (list string)) w lines :
  credentials w = Some (inr lines) ->
  ((3 <= length lines)%nat ->
   load_credentials w [] =
   (Ok (strip (nth 0 lines ""), strip (nth 1 lines ""), strip (nth 2 lines "")),
    credentials_opening)) /\
  ((length lines < 3)%nat -> length (argv w) = 2%nat ->
   run csv_reader w =
   (1, credentials_opening ++
       [Log ERROR "Credentials file missing required lines." [];
        Stderr "Credentials file must have at least 3 lines: Tenant ID, Client ID, Client Secret."])
   /\ existsb is_http (trace csv_reader w) = false).
Proof.
  intros Hfile. split.
  - intros Hlen. rewrite (load_credentials_file w lines [] Hfile).
    apply Nat.leb_le in Hlen. rewrite Hlen. reflexivity.
  - intros Hlen Hargv.
    assert (Hrun : run csv_reader w =
      (1, credentials_opening ++
          [Log ERROR "Credentials file missing required lines." [];
           Stderr "Credentials file must have at least 3 lines: Tenant ID, Client ID, Client Secret."])).
    { unfold run. rewrite main_steps by assumption.
      erewrite bind_Raise.
      2:{ rewrite (load_credentials_file w lines [] Hfile).
          apply Nat.leb_gt in Hlen. rewrite Hlen. reflexivity. }
      reflexivity. }
    split; [exact Hrun|]. unfold trace. rewrite Hrun. reflexivity.
Qed.

(** The scenario of the specification: a credentials file of two lines. *)
Definition world_two_lines : world :=
  world_of ["r1portvlan.py"; "ports.csv"]
    (Some (inr ["tenant" ++ nl; "client" ++ nl]))%string
    (Responded (token_response 200)) (plain_response 200)
    (inr ["V1,AP100,1,10" ++ nl])%string.

Lemma credentials_file_three_lines_witness :
  run plain_csv_reader world_two_lines =
   (1, credentials_opening ++
       [Log ERROR "Credentials file missing required lines." [];
        Stderr "Credentials file must have at least 3 lines: Tenant ID, Client ID, Client Secret."])
  /\ existsb is_http (trace plain_csv_reader world_two_lines) = false.
Proof.
  refine (proj2 (credentials_file_three_lines plain_csv_reader world_two_lines
                   ["tenant" ++ nl; "client" ++ nl]%string _) _ _).
  - reflexivity.
  - cbn. lia.
  - reflexivity.
Defined.

(** A credentials file of three lines, the second of them blank. *)
Definition world_blank_line : world :=
  world_of ["r1portvlan.py"; "ports.csv"]
    (Some (inr ["tenant" ++ nl; nl; "secret" ++ nl]))%string
    (plain_response 401) (plain_response 200)
    (inr ["V1,AP100,1,10" ++ nl])%string.

(** C8, as stated, fails: the file has two lines that are not empty, and
    yet the credentials are taken from it, with an empty client id, and the
    token request is sent. *)
Lemma blank_credentials_line_accepted :
  length (filter truthy (map strip ["tenant" ++ nl; nl; "secret" ++ nl]%string))
    = 2%nat /\
  load_credentials world_blank_line []
    = (Ok ("tenant", "", "secret"), credentials_opening) /\
  filter is_http (trace plain_csv_reader world_blank_line)
    = [HttpPost "https://api.ruckus.cloud/oauth2/token/tenant"
         [("Content-Type", HLit "application/x-www-form-urlencoded")]
         [("grant_type", "client_credentials");
          ("client_id", "");
          ("client_secret", "secret");
          ("audience", "https://api.ruckus.cloud")]].
Proof. repeat split. Qed.

(** ** The exit status *)

(** C9 (amended).  With a number of command-line arguments other than
    one, the run prints the usage line, logs it and exits with status 1,
    and neither the credentials file nor the CSV file is looked at.  With
    one argument, the exit status is 1 when the credentials cannot be
    loaded, when authentication fails, and when the CSV file is missing or
    cannot be opened; it is 0 when the CSV file is read and its records all
    have four fields, whatever happens to the single rows. *)
Theorem exit_status_of_run (csv_reader : list string -> list (list string)) w :
  (length (argv w) <> 2%nat ->
   run csv_reader w = (1, usage_events) /\
   existsb is_file_access (trace csv_reader w) = false) /\
  (length (argv w) = 2%nat ->
   (forall e tr, load_credentials w [] = (Raise e, tr) ->
      exit_status csv_reader w = 1) /\
   (forall tenant_id client_id client_secret tr0,
      load_credentials w [] = (Ok (tenant_id, client_id, client_secret), tr0) ->
      (forall e tr1,
         get_bearer_token w tenant_id client_id client_secret tr0 = (Raise e, tr1) ->
         exit_status csv_reader w = 1) /\
      (forall token tr1,
         get_bearer_token w tenant_id client_id client_secret tr0 = (Ok token, tr1) ->
         (forall err, csv w = inl err -> exit_status csv_reader w = 1) /\
         (forall lines, csv w = inr lines ->
            forallb empty_or_full (csv_reader (skip_comments lines)) = true ->
            exit_status csv_reader w = 0)))).
Proof.
  split.
  - intros Hargv.
    assert (Hrun : run csv_reader w = (1, usage_events)).
    { unfold run. rewrite (main_usage csv_reader w [] Hargv). reflexivity. }
    split; [exact Hrun|]. unfold trace. rewrite Hrun. reflexivity.
  - intros Hargv. split.
    + intros e tr Hload.
      assert (Hmain : main csv_reader w [] = (Raise e, tr)).
      { rewrite main_steps by assumption. apply bind_Raise. exact Hload. }
      destruct (load_credentials_events w []) as (_ & _ & _ & _ & He).
      rewrite Hload in He.
      exact (proj1 (run_raise csv_reader w e tr Hmain (He e eq_refl))).
    + intros tenant_id client_id client_secret tr0 Hload. split.
      * intros e tr1 Hauth.
        exact (proj1 (auth_failure_ends_run csv_reader w tenant_id client_id
                        client_secret tr0 e tr1 Hargv Hload Hauth)).
      * intros token tr1 Hauth. split.
        -- intros err Hcsv.
           destruct (process_csv_missing csv_reader w (nth 1 (argv w) "")
                       tenant_id token err tr1 Hcsv) as (evs & Hrows & _).
           unfold exit_status, run. rewrite main_steps by assumption.
           rewrite (bind_Ok _ _ _ _ _ Hload), (bind_Ok _ _ _ _ _ Hauth), Hrows.
           reflexivity.
        -- intros lines Hcsv Hall.
           destruct (process_csv_returns csv_reader w (nth 1 (argv w) "")
                       tenant_id token lines tr1 Hcsv Hall) as (tr' & Hrows).
           unfold exit_status, run. rewrite main_steps by assumption.
           rewrite (bind_Ok _ _ _ _ _ Hload), (bind_Ok _ _ _ _ _ Hauth), Hrows.
           reflexivity.
Qed.

(** No argument at all. *)
Definition world_no_argument : world :=
  world_of ["r1portvlan.py"] three_lines
    (Responded (token_response 200)) (plain_response 200)
    (inr ["V1,AP100,1,10" ++ nl])%string.

Lemma exit_status_of_run_witness :
  run plain_csv_reader world_no_argument = (1, usage_events) /\
  existsb is_file_access (trace plain_csv_reader world_no_argument) = false.
Proof.
  refine (proj1 (exit_status_of_run plain_csv_reader world_no_argument) _).
  cbn. lia.
Defined.

Example two_arguments_usage :
  run plain_csv_reader
    (world_of ["r1portvlan.py"; "a.csv"; "b.csv"] three_lines
       (Responded (token_response 200)) (plain_response 200) (inl ENOENT))
  = (1, usage_events).
Proof. reflexivity. Qed.

Example missing_csv_exit_1 :
  exit_status plain_csv_reader
    (world_of ["r1portvlan.py"; "ports.csv"] three_lines
       (Responded (token_response 200)) (plain_response 200) (inl ENOENT)) = 1
  /\
  exit_status plain_csv_reader
    (world_of ["r1portvlan.py"; "ports.csv"] three_lines
       (Responded (token_response 200)) (plain_response 200)
       (inl (EOther "Permission denied"))) = 1.
Proof. split; reflexivity. Qed.

(** C9, as stated, fails: the run has its one argument and the CSV file
    is there and can be opened, so the exit status should be 0 "otherwise";
    but the credentials file is short and the exit status is 1. *)
Lemma short_credentials_exit_1 :
  length (argv world_two_lines) = 2%nat /\
  csv world_two_lines = inr ["V1,AP100,1,10" ++ nl]%string /\
  exit_status plain_csv_reader world_two_lines = 1.
Proof. repeat split. Qed.

Example scenario_run :
  exit_status plain_csv_reader scenario_world = 0 /\
  filter (fun e => is_http e || is_skip_line 1 e || is_skip_line 2 e)
         (trace plain_csv_reader scenario_world)
  = [HttpPost "https://api.ruckus.cloud/oauth2/token/tenant"
       [("Content-Type", HLit "application/x-www-form-urlencoded")]
       [("grant_type", "client_credentials");
        ("client_id", "client");
        ("client_secret", "secret");
        ("audience", "https://api.ruckus.cloud")];
     HttpPut "https://api.ruckus.cloud/venues/V1/aps/AP100/lanPorts/1/settings"
       [("Authorization", HBearer (JStr "tok"));
        ("Content-Type", HLit "application/json")]
       (JObj [("useVenueSettings", JBool false);
              ("enabled", JBool true);
              ("overwriteUntagId", JNum 10);
              ("overwriteVlanMembers", JStr "10")]);
     Print [AStr "Skipping row "; AInt 2; AStr ": Invalid VLAN ID ";
            AInt 5000; AStr "."]].
Proof. split; reflexivity. Qed.

(** ** Rows with missing fields *)



(** A CSV whose first record has two fields only, followed by a valid
    row. *)
Definition world_short_row : world :=
  world_of ["r1portvlan.py"; "ports.csv"] three_lines
    (Responded (token_response 200)) (plain_response 200)
    (inr ["V1,AP100" ++ nl; "V2,AP200,2,20" ++ nl])%string.

(** C3 fails on the code.  [DictReader] gives the fields that a record
    does not have the value [None]; [int(None)] raises a [TypeError] (and
    [None.strip()] an [AttributeError]), which the [except (KeyError,
    ValueError)] of the loop body does not catch.  The exception leaves the
    loop, is reported as an error of opening the CSV, and the run exits with
    status 1: the valid row that follows is never configured. *)
Theorem short_row_aborts_the_batch :
  dict_of_record FIELDNAMES ["V1"; "AP100"]
    = [(Some "venue_id", VStr "V1"); (Some "ap_serial", VStr "AP100");
       (Some "port_id", VNone); (Some "vlan_id", VNone)] /\
  fst (process_row world_short_row "tenant" (JStr "tok") 1
         (dict_of_record FIELDNAMES ["V1"; "AP100"]) [])
    = Raise (TypeError "int() argument must be a string or a number") /\
  fst (process_row world_short_row "tenant" (JStr "tok") 1
         (dict_of_record FIELDNAMES ["V1"]) [])
    = Raise (AttributeError "strip") /\
  exit_status plain_csv_reader world_short_row = 1 /\
  existsb is_put (trace plain_csv_reader world_short_row) = false /\
  last (trace plain_csv_reader world_short_row) (Stderr "")
    = Print [AStr "Unexpected error opening CSV: ";
             AExn (TypeError "int() argument must be a string or a number")].
Proof. repeat split. Qed.

(** * Further properties of the script *)

(** ** What a row may do, whatever it holds *)

(** A PUT as the script builds it: the settings URL of trimmed, non-empty
    identifiers, the bearer token, and a VLAN of 1..4094 in the payload. *)
Definition put_ok (token : json) (e : event) : Prop :=
  exists venue_id ap_serial port vlan_id,
    e = HttpPut (port_settings_url (strip venue_id) (strip ap_serial) port)
                (put_headers token) (payload vlan_id) /\
    truthy (strip venue_id) = true /\
    truthy (strip ap_serial) = true /\
    1 <= vlan_id <= 4094.

(** The events of the loop over the rows: log lines, console lines, and
    well-formed PUTs. *)
Inductive row_event (token : json) : event -> Prop :=
| row_event_log l fmt args : row_event token (Log l fmt args)
| row_event_print line : row_event token (Print line)
| row_event_put e : put_ok token e -> row_event token e.

(** The log line that opens a row. *)
Definition is_processing (e : event) : bool :=
  match e with
  | Log _ fmt _ => String.eqb fmt "Processing row %d: %s"
  | _ => false
  end.

(** A result that is no [SystemExit]. *)
Definition no_exit {A} (res : result A) : Prop :=
  match res with
  | Ok _ => True
  | Raise e => is_SystemExit e = false
  end.

Lemma configure_report_row_event token venue_id ap_serial port answer :
  Forall (row_event token) (configure_report venue_id ap_serial port answer) /\
  existsb is_processing (configure_report venue_id ap_serial port answer) = false /\
  filter is_put (configure_report venue_id ap_serial port answer) = [].
Proof.
  unfold configure_report. destruct answer as [detail | r].
  - repeat split; repeat constructor.
  - destruct ((400 <=? status_code r) && (status_code r <? 600));
      repeat split; repeat constructor.
Qed.

Lemma process_row_any w tenant_id token idx r tr :
  exists res evs,
    process_row w tenant_id token idx r tr
      = (res, tr ++ Log INFO "Processing row %d: %s" [AInt (Z.of_nat idx); ARow r]
                 :: evs) /\
    no_exit res /\
    Forall (row_event token) evs /\
    existsb is_processing evs = false /\
    (length (filter is_put evs) <= 1)%nat.
Proof.
  unfold process_row. unfold_py.
  destruct (row_lookup "venue_id" r) as [[venue| |?]|]; cbn.
  all: try (norm_trace; do 2 eexists; split; [reflexivity|];
            repeat split; repeat constructor; fail).
  destruct (row_lookup "ap_serial" r) as [[ap| |?]|]; cbn.
  all: try (norm_trace; do 2 eexists; split; [reflexivity|];
            repeat split; repeat constructor; fail).
  destruct (row_lookup "port_id" r) as [[port_text| |?]|]; cbn.
  all: try (norm_trace; do 2 eexists; split; [reflexivity|];
            repeat split; repeat constructor; fail).
  destruct (int_of_str port_text) as [port|]; cbn.
  all: try (norm_trace; do 2 eexists; split; [reflexivity|];
            repeat split; repeat constructor; fail).
  destruct (row_lookup "vlan_id" r) as [[vlan_text| |?]|]; cbn.
  all: try (norm_trace; do 2 eexists; split; [reflexivity|];
            repeat split; repeat constructor; fail).
  destruct (int_of_str vlan_text) as [vlan|]; cbn.
  all: try (norm_trace; do 2 eexists; split; [reflexivity|];
            repeat split; repeat constructor; fail).
  destruct (truthy (strip venue)) eqn:Hv; cbn.
  all: try (norm_trace; do 2 eexists; split; [reflexivity|];
            repeat split; repeat constructor; fail).
  destruct (truthy (strip ap)) eqn:Ha; cbn.
  all: try (norm_trace; do 2 eexists; split; [reflexivity|];
            repeat split; repeat constructor; fail).
  destruct ((1 <=? vlan) && (vlan <=? 4094)) eqn:Hr; cbn.
  all: try (norm_trace; do 2 eexists; split; [reflexivity|];
            repeat split; repeat constructor; fail).
  rewrite configure_ap_port_trace. unfold configure_request. norm_trace.
  destruct (configure_report_row_event token (strip venue) (strip ap) port
              (server w (tr ++
                 [Log INFO "Processing row %d: %s" [AInt (Z.of_nat idx); ARow r];
                  Log INFO "PUT %s | Payload: %s"
                    [AStr (port_settings_url (strip venue) (strip ap) port);
                     AJson (payload vlan)];
                  HttpPut (port_settings_url (strip venue) (strip ap) port)
                    (put_headers token) (payload vlan)])))
    as (Hall & Hproc & Hput).
  do 2 eexists. split; [reflexivity|].
  split; [exact I|]. split; [|split].
  - constructor; [constructor|]. constructor; [|exact Hall].
    apply row_event_put. exists venue, ap, port, vlan.
    apply andb_true_iff in Hr as [H1 H2].
    apply Z.leb_le in H1. apply Z.leb_le in H2. repeat split; assumption.
  - cbn [existsb is_processing String.eqb Ascii.eqb Bool.eqb orb]. exact Hproc.
  - cbn [filter is_put]. rewrite Hput. cbn. lia.
Qed.

(** The numbers of the rows that a trace opens, in their order. *)
Fixpoint row_numbers (tr : list event) : list Z :=
  match tr with
  | [] => []
  | Log _ fmt (AInt i :: _) :: rest =>
      if String.eqb fmt "Processing row %d: %s" then i :: row_numbers rest
      else row_numbers rest
  | _ :: rest => row_numbers rest
  end.

Lemma row_numbers_app (a b : list event) :
  row_numbers (a ++ b) = row_numbers a ++ row_numbers b.
Proof.
  induction a as [|e a IH]; [reflexivity|].
  destruct e as [| | |l fmt args| | | | |]; cbn [app row_numbers]; try exact IH.
  destruct args as [|[| i | | |] args]; try exact IH.
  destruct (String.eqb fmt _); [cbn [app]; f_equal|]; exact IH.
Qed.

Lemma row_numbers_none (evs : list event) :
  existsb is_processing evs = false -> row_numbers evs = [].
Proof.
  induction evs as [|e evs IH]; [reflexivity|].
  cbn [existsb]. intros H. apply orb_false_iff in H as [He Hevs].
  destruct e as [| | |l fmt args| | | | |]; cbn [row_numbers]; auto.
  cbn [is_processing] in He. rewrite He.
  destruct args as [|[| i | | |] args]; auto.
Qed.

Lemma filter_none_put (l : list event) :
  existsb is_put l = false -> filter is_put l = [].
Proof.
  induction l as [|a l IH]; [reflexivity|].
  cbn. intros H. apply orb_false_iff in H as [Ha Hl].
  rewrite Ha. exact (IH Hl).
Qed.

(** The number of PUTs of each row of a trace: the first number counts
    the PUTs before the first row is opened (after [start] earlier ones),
    each further number the PUTs from the opening of a row to the opening of
    the next, or to the end. *)
Fixpoint put_counts (start : nat) (tr : list event) : list nat :=
  match tr with
  | [] => [start]
  | e :: rest =>
      if is_processing e then start :: put_counts 0 rest
      else put_counts (if is_put e then S start else start) rest
  end.

(** No PUT outside a row, and one at most in each of the [k] rows. *)
Definition one_put_each (start : nat) (evs : list event) (k : nat) : Prop :=
  exists l,
    put_counts start evs = start :: l /\
    Forall (fun n => (n <= 1)%nat) l /\
    length l = k.

Lemma put_counts_app (a b : list event) :
  existsb is_processing a = false ->
  forall start,
    put_counts start (a ++ b) = put_counts (start + length (filter is_put a)) b.
Proof.
  induction a as [|e a IH]; intros Hproc start.
  - cbn. rewrite Nat.add_0_r. reflexivity.
  - cbn [existsb] in Hproc. apply orb_false_iff in Hproc as [He Ha].
    cbn [app put_counts filter]. rewrite He, (IH Ha).
    destruct (is_put e); cbn [length]; f_equal; lia.
Qed.

Lemma put_counts_end (last : list event) :
  existsb is_processing last = false ->
  existsb is_put last = false ->
  forall evs start, put_counts start (evs ++ last) = put_counts start evs.
Proof.
  intros Hproc Hput. induction evs as [|e evs IH]; intros start.
  - cbn [app]. rewrite <- (app_nil_r last) at 1.
    rewrite (put_counts_app last [] Hproc), (filter_none_put last Hput).
    cbn. rewrite Nat.add_0_r. reflexivity.
  - cbn [app put_counts]. rewrite !IH. reflexivity.
Qed.

Lemma for_rows_any w tenant_id token rows :
  forall idx tr, exists res evs k,
    for_rows w tenant_id token idx rows tr = (res, tr ++ evs) /\
    no_exit res /\
    Forall (row_event token) evs /\
    (length (filter is_put evs) <= length rows)%nat /\
    (k <= length rows)%nat /\
    row_numbers evs = map Z.of_nat (seq idx k) /\
    (res = Ok tt -> k = length rows) /\
    (forall start, one_put_each start evs k).
Proof.
  induction rows as [|r rest IH]; intros idx tr.
  - exists (Ok tt), [], 0%nat. cbn. rewrite app_nil_r.
    repeat split; auto. intros start. exists []. repeat split. constructor.
  - destruct (process_row_any w tenant_id token idx r tr)
      as (res1 & evs1 & Hrow & Hexit1 & Hall1 & Hproc1 & Hput1).
    cbn [for_rows]. unfold bind at 1. rewrite Hrow.
    destruct res1 as [[] | e].
    + destruct (IH (S idx) (tr ++ Log INFO "Processing row %d: %s"
                                    [AInt (Z.of_nat idx); ARow r] :: evs1))
        as (res & evs & k & Hrest & Hexit & Hall & Hput & Hk & Hnum & Hok & Hone).
      rewrite Hrest.
      exists res, (Log INFO "Processing row %d: %s" [AInt (Z.of_nat idx); ARow r]
                     :: evs1 ++ evs), (S k).
      split; [norm_trace; reflexivity|]. split; [exact Hexit|].
      split; [constructor; [constructor | apply Forall_app; split; assumption]|].
      split.
      { cbn [filter is_put]. rewrite filter_app, length_app. cbn [length]. lia. }
      split; [cbn [length]; lia|]. split.
      { cbn [row_numbers String.eqb Ascii.eqb Bool.eqb].
        rewrite row_numbers_app, (row_numbers_none _ Hproc1), Hnum. reflexivity. }
      split; [intros H; cbn [length]; f_equal; exact (Hok H)|].
      intros start.
      destruct (Hone (length (filter is_put evs1))) as (l & Hl & Hle & Hlen).
      exists (length (filter is_put evs1) :: l).
      cbn [put_counts is_processing String.eqb Ascii.eqb Bool.eqb].
      rewrite (put_counts_app evs1 evs Hproc1). cbn [Nat.add]. rewrite Hl.
      split; [reflexivity|]. split; [constructor; assumption|].
      cbn [length]. f_equal. exact Hlen.
    + exists (Raise e), (Log INFO "Processing row %d: %s"
                          [AInt (Z.of_nat idx); ARow r] :: evs1), 1%nat.
      split; [reflexivity|]. split; [exact Hexit1|].
      split; [constructor; [constructor | exact Hall1]|].
      split; [cbn [filter is_put length]; lia|].
      split; [cbn [length]; lia|]. split.
      { cbn [row_numbers String.eqb Ascii.eqb Bool.eqb].
        rewrite (row_numbers_none _ Hproc1). reflexivity. }
      split; [discriminate|].
      intros start. exists [length (filter is_put evs1)].
      cbn [put_counts is_processing String.eqb Ascii.eqb Bool.eqb].
      rewrite <- (app_nil_r evs1) at 1.
      rewrite (put_counts_app evs1 [] Hproc1). cbn [Nat.add put_counts].
      split; [reflexivity|].
      split; [constructor; [assumption | constructor] | reflexivity].
Qed.

(** ** Any run *)

Section AnyRun.

Variable csv_reader : list string -> list (list string).

(** The rows that the reader hands to the loop. *)
Definition rows_of (lines : list string) : list row :=
  DictReader (csv_reader (skip_comments lines)) FIELDNAMES.

Lemma process_csv_any w csv_file tenant_id token tr :
  exists res evs k,
    process_csv csv_reader w csv_file tenant_id token tr
      = (res, tr ++ Open csv_file :: evs) /\
    (res = Ok tt \/ res = Raise (SystemExit (ExitCode 1))) /\
    Forall (row_event token) evs /\
    row_numbers evs = map Z.of_nat (seq 1 k) /\
    match csv w with
    | inl _ => res <> Ok tt /\ filter is_put evs = [] /\ k = 0%nat
    | inr lines =>
        (length (filter is_put evs) <= length (rows_of lines))%nat /\
        (k <= length (rows_of lines))%nat /\
        (res = Ok tt -> k = length (rows_of lines))
    end /\
    one_put_each 0 evs k.
Proof.
  unfold process_csv. unfold open_lines.
  destruct (csv w) as [err | lines].
  - unfold_py. destruct err as [|detail]; cbn; norm_trace;
      exists (Raise (SystemExit (ExitCode 1))); eexists; exists 0%nat;
      (split; [reflexivity|]);
      (split; [right; reflexivity|]);
      (split; [repeat constructor|]);
      (split; [reflexivity|]);
      (split; [repeat split; discriminate|]);
      exists []; repeat split; constructor.
  - destruct (for_rows_any w tenant_id token (rows_of lines) 1%nat
                (tr ++ [Open csv_file;
                        Log INFO "Opened CSV file: %s" [AStr csv_file]]))
      as (res & evs & k & Hrows & Hexit & Hall & Hput & Hk & Hnum & Hok & Hone).
    unfold rows_of in Hrows.
    unfold try_except, bind, log, emit, ret. norm_trace. rewrite Hrows.
    destruct res as [[] | e].
    + do 2 eexists. exists k. split; [norm_trace; reflexivity|].
      split; [left; reflexivity|].
      split; [constructor; [constructor | exact Hall]|].
      split; [exact Hnum|].
      cbn [filter is_put]. split; [repeat split; assumption|].
      destruct (Hone 0%nat) as (l & Hl & Hle & Hlen).
      exists l. cbn [put_counts is_processing String.eqb Ascii.eqb Bool.eqb is_put].
      repeat split; assumption.
    + cbn in Hexit. unfold is_Exception. rewrite Hexit. cbn [negb].
      destruct (Hone 0%nat) as (l & Hl & Hle & Hlen).
      destruct (is_FileNotFoundError e); unfold_py; norm_trace;
        do 2 eexists; exists k; (split; [reflexivity|]);
        (split; [right; reflexivity|]);
        (split; [constructor; [constructor|];
                 apply Forall_app; split; [exact Hall | repeat constructor]|]);
        (split; [cbn [row_numbers String.eqb Ascii.eqb Bool.eqb];
                 rewrite row_numbers_app, Hnum; cbn; apply app_nil_r|]);
        (split;
         [cbn [filter is_put]; rewrite filter_app, length_app; cbn;
          (split; [lia|]); (split; [exact Hk | discriminate])|]);
        exists l;
        cbn [put_counts is_processing String.eqb Ascii.eqb Bool.eqb is_put];
        (rewrite put_counts_end by reflexivity);
        repeat split; assumption.
Qed.

(** The four ways a run can go, with what its events are: a usage error;
    no credentials; no token; or the CSV stage, reached with credentials and
    a token. *)
Inductive run_shape (w : world) : result unit -> list event -> Prop :=
| shape_usage :
    length (argv w) <> 2%nat ->
    run_shape w (Raise (SystemExit (ExitCode 1))) usage_events
| shape_no_credentials e evs_c :
    length (argv w) = 2%nat ->
    load_credentials w [] = (Raise e, evs_c) ->
    exits_with_1 e = true ->
    existsb is_http evs_c = false ->
    existsb is_processing evs_c = false ->
    run_shape w (Raise e) evs_c
| shape_no_token t c s e evs_c evs_a :
    length (argv w) = 2%nat ->
    load_credentials w [] = (Ok (t, c, s), evs_c) ->
    exits_with_1 e = true ->
    existsb is_http evs_c = false ->
    existsb is_processing evs_c = false ->
    existsb is_http evs_a = false ->
    existsb is_processing evs_a = false ->
    run_shape w (Raise e) (evs_c ++ auth_request t c s ++ evs_a)
| shape_rows t c s token evs_c evs_a res evs k :
    length (argv w) = 2%nat ->
    load_credentials w [] = (Ok (t, c, s), evs_c) ->
    existsb is_http evs_c = false ->
    existsb is_processing evs_c = false ->
    existsb is_http evs_a = false ->
    existsb is_processing evs_a = false ->
    json_truthy token = true ->
    res = Ok tt \/ res = Raise (SystemExit (ExitCode 1)) ->
    Forall (row_event token) evs ->
    row_numbers evs = map Z.of_nat (seq 1 k) ->
    match csv w with
    | inl _ => res <> Ok tt /\ filter is_put evs = [] /\ k = 0%nat
    | inr lines =>
        (length (filter is_put evs) <= length (rows_of lines))%nat /\
        (k <= length (rows_of lines))%nat /\
        (res = Ok tt -> k = length (rows_of lines))
    end ->
    one_put_each 0 evs k ->
    run_shape w res
      (evs_c ++ auth_request t c s ++ evs_a
         ++ Open (nth 1 (argv w) "") :: evs).

Lemma auth_result_no_http json_is_req answer :
  existsb is_http (snd (auth_result json_is_req answer)) = false.
Proof.
  unfold auth_result. destruct answer as [detail | r]; [reflexivity|].
  destruct ((400 <=? status_code r) && (status_code r <? 600)); [reflexivity|].
  destruct (body r) as [j|]; [|destruct json_is_req; reflexivity].
  destruct j; try reflexivity.
  destruct (json_truthy _); reflexivity.
Qed.

Lemma no_row_event_no_processing (evs : list event) :
  existsb is_row_event evs = false -> existsb is_processing evs = false.
Proof.
  induction evs as [|e evs IH]; [reflexivity|].
  cbn [existsb]. intros H. apply orb_false_iff in H as [He Hevs].
  rewrite (IH Hevs), orb_false_r.
  destruct e; try reflexivity. exact He.
Qed.

Lemma main_shape w :
  exists res tr, main csv_reader w [] = (res, tr) /\ run_shape w res tr.
Proof.
  destruct (Nat.eq_dec (length (argv w)) 2) as [Hargv | Hargv].
  2:{ do 2 eexists. split; [apply (main_usage csv_reader w [] Hargv)|].
      apply shape_usage. exact Hargv. }
  rewrite main_steps by assumption.
  destruct (load_credentials_events w []) as (evs_c & Hc & Hc_http & Hc_row & Hc_exit).
  cbn [app] in Hc.
  destruct (load_credentials w []) as [[[[t c] s] | e] tr0] eqn:Hload;
    cbn [snd fst] in Hc, Hc_exit; subst tr0.
  2:{ do 2 eexists. split; [apply bind_Raise; exact Hload|].
      apply shape_no_credentials; auto using no_row_event_no_processing. }
  rewrite (bind_Ok _ _ _ _ _ Hload).
  pose proof (get_bearer_token_trace w t c s evs_c) as Hauth. cbv zeta in Hauth.
  remember (auth_result (json_error_is_request_exception w)
              (server w (evs_c ++ auth_request t c s))) as out eqn:Hout.
  pose proof (auth_result_no_http (json_error_is_request_exception w)
                (server w (evs_c ++ auth_request t c s))) as Ha_http.
  pose proof (auth_result_no_row_event (json_error_is_request_exception w)
                (server w (evs_c ++ auth_request t c s))) as Ha_row.
  rewrite <- Hout in Ha_http, Ha_row.
  destruct out as [[token | e] evs_a]; cbn [fst snd] in *.
  2:{ do 2 eexists. split; [apply bind_Raise; exact Hauth|].
      norm_trace.
      apply shape_no_token; auto using no_row_event_no_processing.
      apply (auth_result_raise (json_error_is_request_exception w)
               (server w (evs_c ++ auth_request t c s))).
      rewrite <- Hout. reflexivity. }
  rewrite (bind_Ok _ _ _ _ _ Hauth).
  destruct (process_csv_any w (nth 1 (argv w) "") t token
              ((evs_c ++ auth_request t c s) ++ evs_a))
    as (res & evs & k & Hcsv & Hres & Hall & Hnum & Hcount & Hone).
  rewrite Hcsv. do 2 eexists. split; [reflexivity|].
  norm_trace.
  apply (shape_rows w t c s token evs_c evs_a res evs k);
    auto using no_row_event_no_processing.
  destruct (auth_result_ok (json_error_is_request_exception w)
              (server w (evs_c ++ auth_request t c s)) token)
    as (r & d & _ & _ & _ & _ & Htruthy); [|exact Htruthy].
  rewrite <- Hout. reflexivity.
Qed.

End AnyRun.

Lemma run_shape_exits csv_reader w res tr :
  run_shape csv_reader w res tr ->
  res = Ok tt \/ exists e, res = Raise e /\ exits_with_1 e = true.
Proof.
  intros H. destruct H as [ | | | ? ? ? ? ? ? ? ? ? ? ? ? ? ? ? ? [-> | ->] ];
    try (right; eexists; split; [reflexivity|]; (assumption || reflexivity)).
  left. reflexivity.
Qed.

Definition status_of (res : result unit) : Z :=
  match res with Ok _ => 0 | Raise _ => 1 end.

Lemma run_of_main csv_reader w :
  exists res tr last,
    main csv_reader w [] = (res, tr) /\
    run_shape csv_reader w res tr /\
    run csv_reader w = (status_of res, tr ++ last) /\
    existsb is_http last = false /\
    row_numbers last = [].
Proof.
  destruct (main_shape csv_reader w) as (res & tr & Hmain & Hshape).
  exists res, tr.
  destruct (run_shape_exits _ _ _ _ Hshape) as [-> | (e & -> & He)].
  - exists []. unfold run. rewrite Hmain, app_nil_r. repeat split. exact Hshape.
  - unfold run. rewrite Hmain.
    destruct e as [[n | msg] | | | | | |]; cbn in He |- *.
    all: try (eexists; split; [reflexivity|]; split; [exact Hshape|];
              split; [reflexivity|]; split; reflexivity).
    apply Z.eqb_eq in He. subst n.
    exists []. rewrite app_nil_r. repeat split. exact Hshape.
Qed.

Lemma row_events_http token (evs : list event) :
  Forall (row_event token) evs ->
  filter is_http evs = filter is_put evs /\
  Forall (put_ok token) (filter is_put evs).
Proof.
  induction 1 as [|e evs He _ [IH1 IH2]]; [split; constructor|].
  destruct He as [l fmt args | line | e (v & a & p & vl & -> & Hrest)];
    cbn [filter is_http is_put]; try (split; assumption).
  split; [f_equal; exact IH1|].
  constructor; [|exact IH2]. exists v, a, p, vl. split; [reflexivity | exact Hrest].
Qed.

Lemma filter_none {A} (f : A -> bool) (l : list A) :
  existsb f l = false -> filter f l = [].
Proof.
  induction l as [|a l IH]; [reflexivity|].
  cbn. intros H. apply orb_false_iff in H as [Ha Hl].
  rewrite Ha. exact (IH Hl).
Qed.

Lemma filter_put_of_http (l : list event) :
  filter is_put (filter is_http l) = filter is_put l.
Proof.
  induction l as [|e l IH]; [reflexivity|].
  destruct e; cbn; try exact IH. f_equal. exact IH.
Qed.

(** The HTTP requests of a run, in their order: none, or the token
    request followed by the PUTs of the rows, all built by the script with
    the one token [token]. *)
Lemma run_http csv_reader w :
  filter is_http (trace csv_reader w) = [] \/
  exists t c s token puts,
    filter is_http (trace csv_reader w)
      = HttpPost (auth_url t)
          [("Content-Type", HLit "application/x-www-form-urlencoded")]
          [("grant_type", "client_credentials"); ("client_id", c);
           ("client_secret", s); ("audience", "https://api.ruckus.cloud")]
        :: puts /\
    (exists evs_c, load_credentials w [] = (Ok (t, c, s), evs_c)) /\
    Forall (put_ok token) puts /\
    (puts <> [] -> json_truthy token = true).
Proof.
  destruct (run_of_main csv_reader w)
    as (res & tr & last & _ & Hshape & Hrun & Hlast & _).
  unfold trace. rewrite Hrun. cbn [snd].
  rewrite filter_app, (filter_none _ _ Hlast), app_nil_r.
  destruct Hshape.
  - left. reflexivity.
  - left. apply filter_none. assumption.
  - right. exists t, c, s, JNull, [].
    rewrite !filter_app, (filter_none _ evs_c), (filter_none _ evs_a) by assumption.
    repeat split; eauto; congruence.
  - right. destruct (row_events_http token evs) as [Hhttp Hputs]; [assumption|].
    exists t, c, s, token, (filter is_put evs).
    rewrite !filter_app, (filter_none _ evs_c), (filter_none _ evs_a) by assumption.
    cbn [filter is_http app auth_request]. rewrite Hhttp.
    repeat split; eauto.
Qed.

(** X1.  Whatever the surroundings of the run are, the process ends with
    exit status 0 or 1. *)
Theorem exit_status_0_or_1 (csv_reader : list string -> list (list string)) w :
  exit_status csv_reader w = 0 \/ exit_status csv_reader w = 1.
Proof.
  destruct (run_of_main csv_reader w) as (res & tr & last & _ & _ & Hrun & _).
  unfold exit_status. rewrite Hrun. destruct res; [left | right]; reflexivity.
Qed.

(** X2.  A run sends at most one token request, and it is the first HTTP
    request of the run: the requests of a run are none at all, or one POST
    followed by PUTs only. *)
Theorem token_request_once_and_first
  (csv_reader : list string -> list (list string)) w :
  filter is_http (trace csv_reader w) = [] \/
  exists url headers data puts,
    filter is_http (trace csv_reader w) = HttpPost url headers data :: puts /\
    forallb is_put puts = true.
Proof.
  destruct (run_http csv_reader w) as [H | (t & c & s & token & puts & H & _ & Hputs & _)].
  - left. exact H.
  - right. do 4 eexists. split; [exact H|].
    apply forallb_forall. intros e He.
    rewrite Forall_forall in Hputs.
    destruct (Hputs e He) as (v & a & p & vl & -> & _). reflexivity.
Qed.

(** X3.  Every PUT of a run is one that the script built from a row that
    passed validation, and all carry the same token: there is a token,
    which is a true value, such that every PUT of the run goes to the
    settings URL of a trimmed non-empty venue id and AP serial, carries that
    token, and sets a VLAN of 1..4094. *)
Theorem every_put_is_well_formed
  (csv_reader : list string -> list (list string)) w :
  exists token,
    forall e, In e (trace csv_reader w) -> is_put e = true ->
      json_truthy token = true /\
      exists venue_id ap_serial port vlan_id,
        e = HttpPut (port_settings_url (strip venue_id) (strip ap_serial) port)
                    (put_headers token) (payload vlan_id) /\
        truthy (strip venue_id) = true /\
        truthy (strip ap_serial) = true /\
        1 <= vlan_id <= 4094.
Proof.
  destruct (run_http csv_reader w)
    as [H | (t & c & s & token & puts & H & _ & Hputs & Htruthy)].
  - exists JNull. intros e Hin Hput.
    assert (Hf : In e (filter is_http (trace csv_reader w))).
    { apply filter_In. split; [exact Hin|]. destruct e; try discriminate. reflexivity. }
    rewrite H in Hf. destruct Hf.
  - exists token. intros e Hin Hput.
    assert (Hf : In e (filter is_http (trace csv_reader w))).
    { apply filter_In. split; [exact Hin|]. destruct e; try discriminate. reflexivity. }
    rewrite H in Hf. destruct Hf as [<- | Hf]; [discriminate|].
    split.
    + apply Htruthy. intros ->. destruct Hf.
    + rewrite Forall_forall in Hputs. exact (Hputs e Hf).
Qed.

Lemma every_put_is_well_formed_witness :
  exists token,
    forall e, In e (trace plain_csv_reader scenario_world) -> is_put e = true ->
      json_truthy token = true /\
      exists venue_id ap_serial port vlan_id,
        e = HttpPut (port_settings_url (strip venue_id) (strip ap_serial) port)
                    (put_headers token) (payload vlan_id) /\
        truthy (strip venue_id) = true /\
        truthy (strip ap_serial) = true /\
        1 <= vlan_id <= 4094.
Proof. exact (every_put_is_well_formed plain_csv_reader scenario_world). Defined.

(** The number of rows that the loop is given: the records of the CSV
    that are not empty; none when the file cannot be opened. *)
Definition row_count (csv_reader : list string -> list (list string)) (w : world)
  : nat :=
  match csv w with
  | inl _ => 0
  | inr lines => length (rows_of csv_reader lines)
  end.

Lemma run_rows csv_reader w :
  exists k,
    (length (filter is_put (trace csv_reader w)) <= row_count csv_reader w)%nat /\
    row_numbers (trace csv_reader w) = map Z.of_nat (seq 1 k) /\
    (k <= row_count csv_reader w)%nat /\
    (exit_status csv_reader w = 0 ->
     k = row_count csv_reader w /\ exists lines, csv w = inr lines).
Proof.
  destruct (run_of_main csv_reader w)
    as (res & tr & last & _ & Hshape & Hrun & Hlast & Hnum_last).
  unfold trace, exit_status. rewrite Hrun. cbn [fst snd].
  rewrite <- filter_put_of_http, filter_app, (filter_none _ _ Hlast), app_nil_r,
    filter_put_of_http.
  rewrite row_numbers_app, Hnum_last, app_nil_r.
  destruct Hshape.
  - exists 0%nat. cbn. repeat split; try lia; discriminate.
  - exists 0%nat. rewrite <- filter_put_of_http, (filter_none is_http) by assumption.
    rewrite row_numbers_none by assumption.
    cbn. repeat split; try lia; discriminate.
  - exists 0%nat.
    rewrite <- filter_put_of_http, !filter_app, (filter_none is_http evs_c),
      (filter_none is_http evs_a) by assumption.
    rewrite !row_numbers_app, (row_numbers_none evs_c), (row_numbers_none evs_a)
      by assumption.
    cbn. repeat split; try lia; discriminate.
  - exists k.
    rewrite <- filter_put_of_http, !filter_app, (filter_none is_http evs_c),
      (filter_none is_http evs_a) by assumption.
    rewrite !row_numbers_app, (row_numbers_none evs_c), (row_numbers_none evs_a)
      by assumption.
    cbn [auth_request filter is_http is_put app row_numbers String.eqb Ascii.eqb
           Bool.eqb].
    rewrite filter_put_of_http.
    unfold row_count.
    match goal with H : match csv w with _ => _ end |- _ => rename H into Hcsv end.
    destruct (csv w) as [err | lines].
    + destruct Hcsv as (Hres & Hput & ->).
      rewrite Hput. cbn. split; [lia|]. split; [assumption|]. split; [lia|].
      intros Hs. destruct res as [[]|]; [congruence | discriminate].
    + destruct Hcsv as (Hput & Hk & Hok).
      split; [assumption|]. split; [assumption|]. split; [assumption|].
      intros Hs. split; [|eexists; reflexivity].
      apply Hok. destruct res as [[]|]; [reflexivity | discriminate].
Qed.

Lemma run_of_main_quiet csv_reader w :
  exists res tr last,
    run_shape csv_reader w res tr /\
    run csv_reader w = (status_of res, tr ++ last) /\
    existsb is_processing last = false /\
    existsb is_put last = false.
Proof.
  destruct (main_shape csv_reader w) as (res & tr & Hmain & Hshape).
  exists res, tr.
  destruct (run_shape_exits _ _ _ _ Hshape) as [-> | (e & -> & He)].
  - exists []. unfold run. rewrite Hmain, app_nil_r. repeat split. exact Hshape.
  - unfold run. rewrite Hmain.
    destruct e as [[n | msg] | | | | | |]; cbn in He |- *.
    all: try (eexists; split; [exact Hshape|];
              split; [reflexivity|]; split; reflexivity).
    apply Z.eqb_eq in He. subst n.
    exists []. rewrite app_nil_r. repeat split. exact Hshape.
Qed.

Lemma no_http_no_put (l : list event) :
  existsb is_http l = false -> existsb is_put l = false.
Proof.
  induction l as [|e l IH]; [reflexivity|].
  cbn [existsb]. intros H. apply orb_false_iff in H as [He Hl].
  rewrite (IH Hl), orb_false_r. destruct e; try reflexivity. discriminate.
Qed.

Lemma put_counts_quiet (a : list event) :
  existsb is_processing a = false ->
  existsb is_put a = false ->
  forall b start, put_counts start (a ++ b) = put_counts start b.
Proof.
  intros Hproc Hput b start.
  rewrite (put_counts_app a b Hproc), (filter_none_put a Hput).
  cbn. rewrite Nat.add_0_r. reflexivity.
Qed.

(** X4.  A run sends at most one PUT for each row of the CSV (each record
    that is not empty, after the leading comments): no PUT is sent before
    the first row is opened, and between the opening of a row and the
    opening of the next (or the end of the run) there is one PUT at most.
    So the PUTs of a run are no more than its rows, and there is none when
    the CSV file cannot be opened. *)
Theorem at_most_one_put_per_row
  (csv_reader : list string -> list (list string)) w :
  (exists per_row,
     put_counts 0 (trace csv_reader w) = 0%nat :: per_row /\
     Forall (fun n => (n <= 1)%nat) per_row /\
     length per_row = length (row_numbers (trace csv_reader w))) /\
  (length (filter is_put (trace csv_reader w)) <= row_count csv_reader w)%nat.
Proof.
  split; [|destruct (run_rows csv_reader w) as (k & H & _); exact H].
  destruct (run_of_main_quiet csv_reader w)
    as (res & tr & last & Hshape & Hrun & Hlast_proc & Hlast_put).
  unfold trace. rewrite Hrun. cbn [snd].
  rewrite (put_counts_end last Hlast_proc Hlast_put).
  rewrite row_numbers_app, (row_numbers_none last Hlast_proc), app_nil_r.
  destruct Hshape.
  - exists []. repeat split. constructor.
  - rewrite <- (app_nil_r evs_c).
    rewrite put_counts_quiet by auto using no_http_no_put.
    rewrite app_nil_r, row_numbers_none by assumption.
    exists []. repeat split. constructor.
  - rewrite put_counts_quiet by auto using no_http_no_put.
    rewrite put_counts_quiet by reflexivity.
    rewrite <- (app_nil_r evs_a).
    rewrite put_counts_quiet by auto using no_http_no_put.
    rewrite app_nil_r.
    rewrite !row_numbers_app, (row_numbers_none evs_c), (row_numbers_none evs_a)
      by assumption.
    exists []. repeat split. constructor.
  - rewrite put_counts_quiet by auto using no_http_no_put.
    rewrite put_counts_quiet by reflexivity.
    rewrite put_counts_quiet by auto using no_http_no_put.
    rewrite !row_numbers_app, (row_numbers_none evs_c), (row_numbers_none evs_a)
      by assumption.
    cbn [auth_request app row_numbers String.eqb Ascii.eqb Bool.eqb
           put_counts is_processing is_put].
    match goal with H : one_put_each _ _ _ |- _ =>
      destruct H as (l & Hl & Hle & Hlen) end.
    match goal with H : row_numbers evs = _ |- _ => rewrite H end.
    exists l. rewrite length_map, length_seq. repeat split; assumption.
Qed.

Example one_put_for_each_valid_row :
  put_counts 0
    (trace plain_csv_reader
       (world_of ["r1portvlan.py"; "ports.csv"] three_lines
          (Responded (token_response 200)) (plain_response 200)
          (inr ["V1,AP100,1,10" ++ nl; "V2,AP200,2,5000" ++ nl;
                "V3,AP300,3,30" ++ nl])%string))
  = [0; 1; 0; 1]%nat.
Proof. reflexivity. Qed.

(** X5.  The rows that a run opens are numbered 1, 2, 3, ... in their
    order, blank records not counted; and when the exit status is 0 the CSV
    file was opened and every one of its rows was opened. *)
Theorem rows_numbered_from_1
  (csv_reader : list string -> list (list string)) w :
  exists k,
    row_numbers (trace csv_reader w) = map Z.of_nat (seq 1 k) /\
    (k <= row_count csv_reader w)%nat /\
    (exit_status csv_reader w = 0 ->
     k = row_count csv_reader w /\ exists lines, csv w = inr lines).
Proof.
  destruct (run_rows csv_reader w) as (k & _ & H). exists k. exact H.
Qed.

Example blank_lines_are_not_numbered :
  row_numbers
    (trace plain_csv_reader
       (world_of ["r1portvlan.py"; "ports.csv"] three_lines
          (Responded (token_response 200)) (plain_response 200)
          (inr ["# header" ++ nl; "V1,AP100,1,10" ++ nl; nl;
                "V2,AP200,2,20" ++ nl; nl])%string))
  = [1; 2].
Proof. reflexivity. Qed.

(** ** Credentials from the operator and from a file that cannot be read *)

(** X6.  Without a credentials file the operator is asked for the tenant
    id, the client id and the client secret, all three in this order.  When
    none of the answers is empty they are the credentials, as typed, not
    trimmed; when one is empty the run logs the error and exits with the
    diagnostic and status 1 after the third prompt, and no HTTP request was
    sent. *)
Theorem credentials_from_operator
  (csv_reader : list string -> list (list string)) w :
  credentials w = None ->
  let t := operator w "Enter Tenant ID: " in
  let c := operator w "Enter Client ID: " in
  let s := operator w "Enter Client Secret: " in
  (t <> "" /\ c <> "" /\ s <> "" ->
   load_credentials w [] = (Ok (t, c, s), credentials_prompts)) /\
  (t = "" \/ c = "" \/ s = "" -> length (argv w) = 2%nat ->
   run csv_reader w =
   (1, credentials_prompts ++
       [Log ERROR "Missing credential input from user." [];
        Stderr "Tenant ID, Client ID, and Client Secret are required."])
   /\ existsb is_http (trace csv_reader w) = false).
Proof.
  intros Hnone t c s.
  pose proof (load_credentials_prompt w [] Hnone) as Hload. cbv zeta in Hload.
  fold t c s in Hload. cbn [app] in Hload. split.
  - intros (Ht & Hc & Hs). rewrite Hload.
    destruct t; [congruence|]. destruct c; [congruence|]. destruct s; [congruence|].
    reflexivity.
  - intros Hempty Hargv.
    assert (Hfalse : truthy t && truthy c && truthy s = false).
    { destruct Hempty as [-> | [-> | ->]]; cbn;
        rewrite ?andb_false_r; reflexivity. }
    rewrite Hfalse in Hload.
    assert (Hrun : run csv_reader w =
      (1, credentials_prompts ++
          [Log ERROR "Missing credential input from user." [];
           Stderr "Tenant ID, Client ID, and Client Secret are required."])).
    { unfold run. rewrite main_steps by assumption.
      rewrite (bind_Raise _ _ _ _ _ Hload). reflexivity. }
    split; [exact Hrun|]. unfold trace. rewrite Hrun. reflexivity.
Qed.

(** An operator who leaves the client secret empty. *)
Definition world_empty_secret : world :=
  {| argv := ["r1portvlan.py"; "ports.csv"];
     credentials := None;
     operator := fun prompt =>
       if String.eqb prompt "Enter Client Secret: " then "" else " typed ";
     server := server_of (Responded (token_response 200)) (plain_response 200);
     json_error_is_request_exception := true;
     csv := inr ["V1,AP100,1,10" ++ nl]%string |}.

Lemma credentials_from_operator_witness :
  run plain_csv_reader world_empty_secret =
   (1, credentials_prompts ++
       [Log ERROR "Missing credential input from user." [];
        Stderr "Tenant ID, Client ID, and Client Secret are required."])
  /\ existsb is_http (trace plain_csv_reader world_empty_secret) = false.
Proof.
  refine (proj2 (credentials_from_operator plain_csv_reader world_empty_secret _) _ _).
  - reflexivity.
  - right. right. reflexivity.
  - reflexivity.
Defined.

Example typed_answers_are_not_trimmed :
  fst (load_credentials
         {| argv := []; credentials := None; operator := fun _ => " typed ";
            server := server_of (plain_response 200) (plain_response 200);
            json_error_is_request_exception := true; csv := inl ENOENT |} [])
  = Ok (" typed ", " typed ", " typed ").
Proof. reflexivity. Qed.

(** X7.  A credentials file that is there but cannot be opened or read
    ends the run: the error is logged, the process exits with the diagnostic
    and status 1, and no HTTP request was sent. *)
Theorem unreadable_credentials_file
  (csv_reader : list string -> list (list string)) w err :
  credentials w = Some (inl err) ->
  length (argv w) = 2%nat ->
  run csv_reader w =
   (1, credentials_opening ++
       [Log ERROR "Error reading credentials file: %s" [AExn (OSError err)];
        Stderr "Error reading credentials file. Check app.log for details."])
  /\ existsb is_http (trace csv_reader w) = false.
Proof.
  intros Hfile Hargv.
  assert (Hrun : run csv_reader w =
   (1, credentials_opening ++
       [Log ERROR "Error reading credentials file: %s" [AExn (OSError err)];
        Stderr "Error reading credentials file. Check app.log for details."])).
  { unfold run. rewrite main_steps by assumption.
    rewrite (bind_Raise _ _ _ _ _ (load_credentials_unreadable w err [] Hfile)).
    reflexivity. }
  split; [exact Hrun|]. unfold trace. rewrite Hrun. reflexivity.
Qed.

Definition world_unreadable_credentials : world :=
  world_of ["r1portvlan.py"; "ports.csv"] (Some (inl (EOther "Permission denied")))
    (Responded (token_response 200)) (plain_response 200)
    (inr ["V1,AP100,1,10" ++ nl])%string.

Lemma unreadable_credentials_file_witness :
  run plain_csv_reader world_unreadable_credentials =
   (1, credentials_opening ++
       [Log ERROR "Error reading credentials file: %s"
            [AExn (OSError (EOther "Permission denied"))];
        Stderr "Error reading credentials file. Check app.log for details."])
  /\ existsb is_http (trace plain_csv_reader world_unreadable_credentials) = false.
Proof.
  apply (unreadable_credentials_file plain_csv_reader world_unreadable_credentials
           (EOther "Permission denied")); reflexivity.
Defined.

(** ** Rows that are skipped *)

(** The string holds nothing but whitespace (or nothing at all). *)
Definition all_space (s : string) : bool :=
  forallb is_space (list_ascii_of_string s).

Lemma lstrip_empty (s : string) : lstrip s = "" <-> all_space s = true.
Proof.
  unfold all_space. induction s as [|c s IH]; cbn; [tauto|].
  destruct (is_space c); cbn; [exact IH|]. split; discriminate.
Qed.

Lemma rstrip_empty (s : string) : rstrip s = "" <-> all_space s = true.
Proof.
  unfold all_space. induction s as [|c s IH]; cbn; [tauto|].
  destruct (rstrip s) eqn:Hr.
  - destruct (is_space c); cbn.
    + split; [intros _; apply IH; reflexivity | reflexivity].
    + split; discriminate.
  - split; [discriminate|]. intros H. apply andb_true_iff in H as [_ H].
    apply IH in H. discriminate.
Qed.

Lemma lstrip_head (s : string) c r : lstrip s = String c r -> is_space c = false.
Proof.
  induction s as [|c' s IH]; cbn; [discriminate|].
  destruct (is_space c') eqn:Hc; [exact IH|]. intros [= <- _]. exact Hc.
Qed.

Lemma strip_empty (s : string) : strip s = "" <-> all_space s = true.
Proof.
  unfold strip. split.
  - intros H. apply rstrip_empty in H. apply lstrip_empty.
    destruct (lstrip s) as [|c r] eqn:Hl; [reflexivity|].
    apply lstrip_head in Hl. unfold all_space in H. cbn in H.
    rewrite Hl in H. discriminate.
  - intros H. apply lstrip_empty in H. rewrite H. reflexivity.
Qed.

(** X8.  A row with its four fields whose [venue_id] or [ap_serial] holds
    nothing but whitespace is never configured, whatever its other fields
    are: the loop body returns normally, sends no HTTP request and prints
    the line that tells the row is skipped. *)
Theorem blank_identifier_skipped w tenant_id token idx venue_id ap_serial
  port_id vlan_id surplus tr :
  all_space venue_id = true \/ all_space ap_serial = true ->
  exists tr',
    process_row w tenant_id token idx
      (full_row venue_id ap_serial port_id vlan_id surplus) tr
      = (Ok tt, tr ++ tr') /\
    existsb is_http tr' = false /\
    existsb (is_skip_line idx) tr' = true.
Proof.
  intros Hblank.
  assert (Hmissing : String.eqb (strip venue_id) "" || String.eqb (strip ap_serial) ""
                     = true).
  { destruct Hblank as [H | H]; apply strip_empty in H; rewrite H;
      cbn; auto using orb_true_r. }
  rewrite process_row_full. unfold spec_validate. rewrite Hmissing.
  destruct (int_of_str port_id) as [port|];
    [destruct (int_of_str vlan_id) as [vlan|]|];
    cbn [carry_out]; unfold_py; norm_trace;
    (eexists; split; [reflexivity|]); cbn;
    rewrite Z.eqb_refl; split; reflexivity.
Qed.

Lemma blank_identifier_skipped_witness :
  exists tr',
    process_row scenario_world "tenant" (JStr "tok") 1
      (full_row "   " "AP100" "1" "10" []) []
      = (Ok tt, [] ++ tr') /\
    existsb is_http tr' = false /\
    existsb (is_skip_line 1) tr' = true.
Proof.
  apply (blank_identifier_skipped scenario_world "tenant" (JStr "tok") 1
           "   " "AP100" "1" "10" [] []).
  left. reflexivity.
Defined.

(** X9.  A row with its four fields whose [port_id] or [vlan_id] is no
    integer is skipped with the [ValueError] of [int] as its reason:
    nothing is sent, and the error names the text that did not parse,
    [port_id] when both do not. *)
Theorem unparsable_number_skipped w tenant_id token idx venue_id ap_serial
  port_id vlan_id surplus tr :
  int_of_str port_id = None \/ int_of_str vlan_id = None ->
  let r := full_row venue_id ap_serial port_id vlan_id surplus in
  let literal := match int_of_str port_id with
                 | None => port_id
                 | Some _ => vlan_id
                 end in
  process_row w tenant_id token idx r tr =
  (Ok tt,
   tr ++ [Log INFO "Processing row %d: %s" [AInt (Z.of_nat idx); ARow r];
          Log ERROR "Error processing row %d: %s | Row: %s"
              [AInt (Z.of_nat idx); AExn (ValueError literal); ARow r];
          Print [AStr "Skipping row "; AInt (Z.of_nat idx); AStr ": ";
                 AExn (ValueError literal)]]).
Proof.
  intros Hbad r literal. unfold r, literal.
  rewrite process_row_full. unfold spec_validate.
  destruct (int_of_str port_id) as [port|].
  - destruct Hbad as [Hbad | Hbad]; [discriminate|]. rewrite Hbad.
    cbn [carry_out]. unfold_py. norm_trace. reflexivity.
  - cbn [carry_out]. unfold_py. norm_trace. reflexivity.
Qed.

Lemma unparsable_number_skipped_witness :
  process_row scenario_world "tenant" (JStr "tok") 3
    (full_row "V1" "AP100" "eth0" "1.5" []) [] =
  (Ok tt,
   [] ++ [Log INFO "Processing row %d: %s"
              [AInt (Z.of_nat 3); ARow (full_row "V1" "AP100" "eth0" "1.5" [])];
          Log ERROR "Error processing row %d: %s | Row: %s"
              [AInt (Z.of_nat 3); AExn (ValueError "eth0");
               ARow (full_row "V1" "AP100" "eth0" "1.5" [])];
          Print [AStr "Skipping row "; AInt (Z.of_nat 3); AStr ": ";
                 AExn (ValueError "eth0")]]).
Proof.
  apply (unparsable_number_skipped scenario_world "tenant" (JStr "tok") 3
           "V1" "AP100" "eth0" "1.5" [] []).
  left. reflexivity.
Defined.

(** A [port_id] that starts with the separator 0x1f, which [strip] would
    remove but [int] does not accept, and one of 4301 digits: both rows are
    skipped with the [ValueError] of [port_id], and nothing is sent. *)
Example separator_in_port_is_skipped :
  spec_validate "V1" "AP100" (String "031" "1") "10"
    = SkipParseError (String "031" "1") /\
  spec_validate "V1" "AP100" (String "031" "1") "abc"
    = SkipParseError (String "031" "1") /\
  filter is_http
    (snd (process_row scenario_world "tenant" (JStr "tok") 1
            (full_row "V1" "AP100" (String "031" "1") "10" []) [])) = [].
Proof. repeat split. Qed.

Example long_port_is_skipped :
  spec_validate "V1" "AP100" (string_of_char 4301 "7") "10"
    = SkipParseError (string_of_char 4301 "7").
Proof. vm_compute. reflexivity. Qed.

(** ** Records with fewer than four fields *)

(** X11.  What the loop body does with a record of one, two or three
    fields.  One field: [ap_serial] is [None] and [strip] raises an
    [AttributeError].  Two fields: [int] of the missing [port_id] raises a
    [TypeError].  Three fields: a [port_id] that is no integer gives the
    skip of a parse error, and only a [port_id] that parses lets [int] of
    the missing [vlan_id] raise the [TypeError].  No request is sent, and an
    exception ends the loop: the rows that follow are not opened. *)
Theorem short_record_outcome w tenant_id token idx v a p rest tr :
  let body record :=
    process_row w tenant_id token idx (dict_of_record FIELDNAMES record) tr in
  let type_error :=
    TypeError "int() argument must be a string or a number" in
  fst (body [v]) = Raise (AttributeError "strip") /\
  fst (body [v; a]) = Raise type_error /\
  fst (body [v; a; p]) =
    match int_of_str p with
    | Some _ => Raise type_error
    | None => Ok tt
    end /\
  (forall record, In record [[v]; [v; a]; [v; a; p]] ->
     filter is_http (snd (body record)) = filter is_http tr /\
     (fst (body record) <> Ok tt ->
      for_rows w tenant_id token idx
        (dict_of_record FIELDNAMES record :: rest) tr = body record)).
Proof.
  cbv zeta. split; [reflexivity|]. split; [reflexivity|]. split.
  { unfold process_row. unfold_py. cbn.
    destruct (int_of_str p); reflexivity. }
  intros record [<- | [<- | [<- | []]]]; cbn [for_rows]; unfold bind at 1.
  - unfold process_row. unfold_py. cbn. rewrite filter_app, app_nil_r.
    split; reflexivity.
  - unfold process_row. unfold_py. cbn. rewrite filter_app, app_nil_r.
    split; reflexivity.
  - unfold process_row. unfold_py. cbn.
    destruct (int_of_str p); cbn; rewrite ?filter_app; cbn; rewrite ?app_nil_r;
      split; try reflexivity.
    intros H. congruence.
Qed.

(** ** The token request *)

(** X10.  With a credentials file of at least three lines, the run goes
    on from the file to the token request: a POST to the token URL of the
    tenant id of the first line, with the client id of the second line and
    the client secret of the third, each trimmed, in its form. *)
Theorem token_request_of_credentials_file
  (csv_reader : list string -> list (list string)) w lines :
  credentials w = Some (inr lines) ->
  (3 <= length lines)%nat ->
  length (argv w) = 2%nat ->
  exists rest,
    trace csv_reader w =
    credentials_opening ++
    [Log INFO "Requesting JWT token from %s"
         [AStr ("https://api.ruckus.cloud/oauth2/token/" ++ strip (nth 0 lines ""))%string];
     HttpPost ("https://api.ruckus.cloud/oauth2/token/" ++ strip (nth 0 lines ""))%string
       [("Content-Type", HLit "application/x-www-form-urlencoded")]
       [("grant_type", "client_credentials");
        ("client_id", strip (nth 1 lines ""));
        ("client_secret", strip (nth 2 lines ""));
        ("audience", "https://api.ruckus.cloud")]] ++ rest.
Proof.
  intros Hfile Hlen Hargv.
  pose proof (load_credentials_file w lines [] Hfile) as Hload.
  apply Nat.leb_le in Hlen. rewrite Hlen in Hload. cbn [app] in Hload.
  destruct (run_of_main csv_reader w) as (res & tr & last & _ & Hshape & Hrun & _).
  unfold trace. rewrite Hrun. cbn [snd].
  destruct Hshape as [Hbad | e evs_c _ Hl | t c s e evs_c evs_a _ Hl
                     | t c s token evs_c evs_a res evs k _ Hl].
  - contradiction.
  - rewrite Hload in Hl. discriminate.
  - rewrite Hload in Hl. injection Hl as <- <- <- <-.
    exists (evs_a ++ last). unfold auth_request, auth_url. norm_trace. reflexivity.
  - rewrite Hload in Hl. injection Hl as <- <- <- <-.
    eexists. unfold auth_request, auth_url. norm_trace. reflexivity.
Qed.

Lemma token_request_of_credentials_file_witness :
  exists rest,
    trace plain_csv_reader scenario_world =
    credentials_opening ++
    [Log INFO "Requesting JWT token from %s"
         [AStr ("https://api.ruckus.cloud/oauth2/token/"
                  ++ strip (nth 0 ["tenant" ++ nl; "client" ++ nl; "secret" ++ nl] ""))%string];
     HttpPost ("https://api.ruckus.cloud/oauth2/token/"
                 ++ strip (nth 0 ["tenant" ++ nl; "client" ++ nl; "secret" ++ nl] ""))%string
       [("Content-Type", HLit "application/x-www-form-urlencoded")]
       [("grant_type", "client_credentials");
        ("client_id", strip (nth 1 ["tenant" ++ nl; "client" ++ nl; "secret" ++ nl] "")%string);
        ("client_secret", strip (nth 2 ["tenant" ++ nl; "client" ++ nl; "secret" ++ nl] "")%string);
        ("audience", "https://api.ruckus.cloud")]] ++ rest.
Proof.
  apply (token_request_of_credentials_file plain_csv_reader scenario_world
           ["tenant" ++ nl; "client" ++ nl; "secret" ++ nl]%string).
  - reflexivity.
  - cbn. lia.
  - reflexivity.
Defined.

(** X14.  An [access_token] that is there but is no true value (an empty
    string, [null], [false], 0, an empty list or object) counts as missing:
    on a response with a status outside 400..599 that holds such a token,
    [get_bearer_token] logs the body and exits with the message that the
    response has no [access_token]. *)
Theorem falsy_token_is_no_token w tenant_id client_id client_secret tr r d :
  server w (tr ++ auth_request tenant_id client_id client_secret) = Responded r ->
  ~ (400 <= status_code r < 600) ->
  body r = Some (JObj d) ->
  json_truthy (dict_get "access_token" d) = false ->
  get_bearer_token w tenant_id client_id client_secret tr =
  (Raise (SystemExit (ExitMsg "Authentication failed: No access_token in response.")),
   tr ++ auth_request tenant_id client_id client_secret
      ++ [Log INFO "Auth response: %s %s" [AInt (status_code r); AStr (text r)];
          Log ERROR "No access_token in response: %s" [AStr (text r)]]).
Proof.
  intros Hserver Hstatus Hbody Hfalsy.
  rewrite get_bearer_token_trace. cbv zeta. rewrite Hserver.
  unfold auth_result. rewrite Hbody, Hfalsy.
  replace ((400 <=? status_code r) && (status_code r <? 600)) with false.
  - cbn. norm_trace. reflexivity.
  - symmetry. apply andb_false_iff.
    destruct (Z.leb_spec 400 (status_code r)); [|auto].
    destruct (Z.ltb_spec (status_code r) 600); [|auto]. lia.
Qed.

Definition empty_token_response : response :=
  {| status_code := 200;
     text := "{'access_token': ''}";
     body := Some (JObj [("access_token", JStr "")]) |}.

Definition world_empty_token : world :=
  world_of ["r1portvlan.py"; "ports.csv"] three_lines
    (Responded empty_token_response) (plain_response 200)
    (inr ["V1,AP100,1,10" ++ nl])%string.

Lemma falsy_token_is_no_token_witness :
  get_bearer_token world_empty_token "tenant" "client" "secret" [] =
  (Raise (SystemExit (ExitMsg "Authentication failed: No access_token in response.")),
   [] ++ auth_request "tenant" "client" "secret"
      ++ [Log INFO "Auth response: %s %s"
              [AInt (status_code empty_token_response);
               AStr (text empty_token_response)];
          Log ERROR "No access_token in response: %s"
              [AStr (text empty_token_response)]]).
Proof.
  apply (falsy_token_is_no_token world_empty_token "tenant" "client" "secret" []
           empty_token_response [("access_token", JStr "")]).
  - reflexivity.
  - cbn. lia.
  - reflexivity.
  - reflexivity.
Defined.

(** Whether the JSON document is an object. *)
Definition is_object (j : json) : bool :=
  match j with JObj _ => true | _ => false end.

(** X15.  A response with a status outside 400..599 whose body is JSON
    but no object (a list, a string, a number, ...) makes [get_bearer_token]
    raise an [AttributeError], which its [except] clause does not catch:
    nothing is logged after the response, and a run that got this far ends
    with the traceback of the exception and exit status 1. *)
Theorem token_response_not_an_object
  (csv_reader : list string -> list (list string))
  w tenant_id client_id client_secret tr r j :
  server w (tr ++ auth_request tenant_id client_id client_secret) = Responded r ->
  ~ (400 <= status_code r < 600) ->
  body r = Some j ->
  is_object j = false ->
  get_bearer_token w tenant_id client_id client_secret tr =
    (Raise (AttributeError "get"),
     tr ++ auth_request tenant_id client_id client_secret
        ++ [Log INFO "Auth response: %s %s" [AInt (status_code r); AStr (text r)]])
  /\ (length (argv w) = 2%nat ->
      load_credentials w [] = (Ok (tenant_id, client_id, client_secret), tr) ->
      run csv_reader w =
      (1, tr ++ auth_request tenant_id client_id client_secret
             ++ [Log INFO "Auth response: %s %s" [AInt (status_code r); AStr (text r)];
                 Traceback (AttributeError "get")])).
Proof.
  intros Hserver Hstatus Hbody Hobj.
  assert (Hauth : get_bearer_token w tenant_id client_id client_secret tr =
    (Raise (AttributeError "get"),
     tr ++ auth_request tenant_id client_id client_secret
        ++ [Log INFO "Auth response: %s %s" [AInt (status_code r); AStr (text r)]])).
  { rewrite get_bearer_token_trace. cbv zeta. rewrite Hserver.
    unfold auth_result. rewrite Hbody.
    replace ((400 <=? status_code r) && (status_code r <? 600)) with false.
    - destruct j; try discriminate; cbn; norm_trace; reflexivity.
    - symmetry. apply andb_false_iff.
      destruct (Z.leb_spec 400 (status_code r)); [|auto].
      destruct (Z.ltb_spec (status_code r) 600); [|auto]. lia. }
  split; [exact Hauth|].
  intros Hargv Hload. unfold run. rewrite main_steps by assumption.
  rewrite (bind_Ok _ _ _ _ _ Hload), (bind_Raise _ _ _ _ _ Hauth).
  norm_trace. reflexivity.
Qed.

Definition list_response : response :=
  {| status_code := 200; text := "['tok']"; body := Some (JArr [JStr "tok"]) |}.

Definition world_list_body : world :=
  world_of ["r1portvlan.py"; "ports.csv"] three_lines
    (Responded list_response) (plain_response 200)
    (inr ["V1,AP100,1,10" ++ nl])%string.

Lemma token_response_not_an_object_witness :
  run plain_csv_reader world_list_body =
  (1, credentials_opening ++ auth_request "tenant" "client" "secret"
         ++ [Log INFO "Auth response: %s %s"
                 [AInt (status_code list_response); AStr (text list_response)];
             Traceback (AttributeError "get")]).
Proof.
  refine (proj2 (token_response_not_an_object plain_csv_reader world_list_body
                   "tenant" "client" "secret" credentials_opening
                   list_response (JArr [JStr "tok"]) _ _ _ _) _ _).
  - reflexivity.
  - cbn. lia.
  - reflexivity.
  - reflexivity.
  - reflexivity.
  - reflexivity.
Defined.

(** ** The CSV file that cannot be opened *)

(** The diagnostic of a CSV file that cannot be opened: its own for a
    file that is not there, the general one for every other error. *)
Definition csv_open_diagnostic (csv_file : string) (err : os_error) : list event :=
  match err with
  | ENOENT =>
      [Log ERROR "CSV file not found: %s" [AStr csv_file];
       Print [AStr "CSV file "; AStr csv_file; AStr " not found"]]
  | EOther _ =>
      [Log ERROR "Unexpected error opening CSV: %s" [AExn (OSError err)];
       Print [AStr "Unexpected error opening CSV: "; AExn (OSError err)]]
  end.

(** X12.  The CSV file, the one named by the argument, is opened only
    after the token was obtained.  When it cannot be opened the run ends
    there with exit status 1, after the diagnostic on the console and in the
    log: the token request has been sent, no PUT has. *)
Theorem csv_cannot_be_opened (csv_reader : list string -> list (list string))
  w tenant_id client_id client_secret tr0 token tr1 err :
  length (argv w) = 2%nat ->
  load_credentials w [] = (Ok (tenant_id, client_id, client_secret), tr0) ->
  get_bearer_token w tenant_id client_id client_secret tr0 = (Ok token, tr1) ->
  csv w = inl err ->
  run csv_reader w =
    (1, tr1 ++ Open (nth 1 (argv w) "")
            :: csv_open_diagnostic (nth 1 (argv w) "") err) /\
  (exists evs, tr1 = tr0 ++ auth_request tenant_id client_id client_secret ++ evs) /\
  existsb is_put (trace csv_reader w) = false.
Proof.
  intros Hargv Hload Hauth Hcsv.
  assert (Hrun : run csv_reader w =
    (1, tr1 ++ Open (nth 1 (argv w) "")
            :: csv_open_diagnostic (nth 1 (argv w) "") err)).
  { unfold run. rewrite main_steps by assumption.
    rewrite (bind_Ok _ _ _ _ _ Hload), (bind_Ok _ _ _ _ _ Hauth).
    unfold process_csv. unfold_py. rewrite Hcsv.
    destruct err as [|detail]; cbn; norm_trace; reflexivity. }
  pose proof (get_bearer_token_trace w tenant_id client_id client_secret tr0) as Ht.
  cbv zeta in Ht. rewrite Hauth in Ht. injection Ht as _ Htr1.
  rewrite <- app_assoc in Htr1.
  split; [exact Hrun|]. split; [eexists; exact Htr1|].
  unfold trace. rewrite Hrun. cbn [snd].
  destruct (load_credentials_events w []) as (evs_c & Hc & _ & Hrow & _).
  rewrite Hload in Hc. cbn in Hc. rewrite <- Hc in Hrow.
  pose proof (auth_result_no_row_event (json_error_is_request_exception w)
                (server w (tr0 ++ auth_request tenant_id client_id client_secret)))
    as Hrow_a.
  assert (Hput : forall l, existsb is_row_event l = false -> existsb is_put l = false).
  { induction l as [|e l IH]; [reflexivity|]. cbn [existsb].
    intros H. apply orb_false_iff in H as [He Hl]. rewrite (IH Hl), orb_false_r.
    destruct e; try reflexivity. discriminate. }
  rewrite Htr1. rewrite !existsb_app, (Hput _ Hrow), (Hput _ Hrow_a).
  destruct err; reflexivity.
Qed.

Definition world_missing_csv : world :=
  world_of ["r1portvlan.py"; "ports.csv"] three_lines
    (Responded (token_response 200)) (plain_response 200) (inl ENOENT).

Lemma csv_cannot_be_opened_witness :
  run plain_csv_reader world_missing_csv =
    (1, (credentials_opening ++ auth_request "tenant" "client" "secret"
           ++ [Log INFO "Auth response: %s %s"
                   [AInt 200; AStr (text (token_response 200))];
               Log INFO "Successfully obtained JWT token." []])
          ++ Open (nth 1 (argv world_missing_csv) "")
            :: csv_open_diagnostic (nth 1 (argv world_missing_csv) "") ENOENT) /\
  (exists evs,
     credentials_opening ++ auth_request "tenant" "client" "secret"
       ++ [Log INFO "Auth response: %s %s"
               [AInt 200; AStr (text (token_response 200))];
           Log INFO "Successfully obtained JWT token." []]
     = credentials_opening ++ auth_request "tenant" "client" "secret" ++ evs) /\
  existsb is_put (trace plain_csv_reader world_missing_csv) = false.
Proof.
  apply (csv_cannot_be_opened plain_csv_reader world_missing_csv
           "tenant" "client" "secret" credentials_opening (JStr "tok")); reflexivity.
Defined.

(** ** What one configuration request reports *)

Definition is_print (e : event) : bool :=
  match e with Print _ => true | _ => false end.

(** X13.  Every call of [configure_ap_port] sends one request, the PUT,
    and prints one line: that the port is configured, or that it failed.  It
    reports a failure exactly when no response came or the status of the
    response is one of 400..599. *)
Theorem configure_reports_once w tenant_id venue_id ap_serial port vlan_id token tr :
  exists tr',
    configure_ap_port w tenant_id venue_id ap_serial port vlan_id token tr
      = (Ok tt, tr ++ tr') /\
    filter is_http tr'
      = [HttpPut (port_settings_url venue_id ap_serial port)
           (put_headers token) (payload vlan_id)] /\
    length (filter is_print tr') = 1%nat /\
    let answer :=
      server w (tr ++ configure_request venue_id ap_serial port vlan_id token) in
    existsb is_failed_line tr' = is_failure answer /\
    existsb is_configured_line tr' = negb (is_failure answer).
Proof.
  rewrite configure_ap_port_trace. eexists. split; [reflexivity|].
  cbv zeta. unfold configure_request. cbn [app filter is_http is_print].
  rewrite configure_report_no_http.
  destruct (server w _) as [detail | r]; cbn.
  - repeat split.
  - destruct ((400 <=? status_code r) && (status_code r <? 600)); repeat split.
Qed.

(** ** [skip_comments] on comments only *)

(** X16.  [skip_comments] yields nothing exactly when every line of the
    input is a comment (or there is no line): a file of comments only gives
    no row. *)
Theorem skip_comments_nothing_iff (lines : list string) :
  skip_comments lines = [] <-> forallb is_comment lines = true.
Proof.
  induction lines as [|line rest IH]; cbn; [tauto|].
  destruct (is_comment line); cbn; [exact IH|].
  split; discriminate.
Qed.

(** ** The fields of a row *)

(** The value that [DictReader] stores for the field at a position. *)
Definition field_at (record : list string) (i : nat) : value :=
  match nth_error record i with
  | Some f => VStr f
  | None => VNone
  end.

Definition is_key_error (a : arg) : bool :=
  match a with AExn (KeyError _) => true | _ => false end.

(** The event reports a [KeyError]: in the log, on the console or in a
    traceback. *)
Definition reports_key_error (e : event) : bool :=
  match e with
  | Log _ _ args => existsb is_key_error args
  | Print line => existsb is_key_error line
  | Traceback (KeyError _) => true
  | _ => false
  end.

Lemma configure_report_no_key_error venue_id ap_serial port answer :
  existsb reports_key_error (configure_report venue_id ap_serial port answer)
  = false.
Proof.
  unfold configure_report. destruct answer as [detail | r]; [reflexivity|].
  destruct ((400 <=? status_code r) && (status_code r <? 600)); reflexivity.
Qed.

(** X17.  The loop body never meets a [KeyError] on a row of the reader,
    whatever the record holds: the fields of the record are under the four
    names by their position (there is no header), a name the record does
    not reach has the value [None], so every lookup of the body finds its
    key; the body neither raises a [KeyError] nor reports one in the log or
    on the console. *)
Theorem fields_by_position w tenant_id token idx (record : list string) tr :
  let r := dict_of_record FIELDNAMES record in
  let out := process_row w tenant_id token idx r tr in
  (row_lookup "venue_id" r = Some (field_at record 0) /\
   row_lookup "ap_serial" r = Some (field_at record 1) /\
   row_lookup "port_id" r = Some (field_at record 2) /\
   row_lookup "vlan_id" r = Some (field_at record 3)) /\
  match fst out with
  | Raise (KeyError _) => False
  | _ => True
  end /\
  exists evs, snd out = tr ++ evs /\ existsb reports_key_error evs = false.
Proof.
  cbv zeta. split.
  { destruct record as [|v [|a [|p [|l surplus]]]]; repeat split. }
  destruct record as [|v [|a [|p [|l surplus]]]].
  - unfold process_row. unfold_py. cbn. split; [exact I|].
    eexists. split; reflexivity.
  - unfold process_row. unfold_py. cbn. split; [exact I|].
    eexists. split; reflexivity.
  - unfold process_row. unfold_py. cbn. split; [exact I|].
    eexists. split; reflexivity.
  - unfold process_row. unfold_py. cbn.
    destruct (int_of_str p); cbn; (split; [exact I|]); norm_trace;
      eexists; split; reflexivity.
  - fold (full_row v a p l surplus). rewrite process_row_full.
    destruct (spec_validate v a p l) as [venue ap port vlan | literal | | vlan];
      cbn [carry_out].
    + rewrite configure_ap_port_trace. cbn [fst snd]. split; [exact I|].
      norm_trace. eexists. split; [reflexivity|].
      cbn [existsb reports_key_error is_key_error configure_request app orb].
      apply configure_report_no_key_error.
    + unfold_py. cbn. split; [exact I|]. norm_trace.
      eexists. split; reflexivity.
    + unfold_py. cbn. split; [exact I|]. norm_trace.
      eexists. split; reflexivity.
    + unfold_py. cbn. split; [exact I|]. norm_trace.
      eexists. split; reflexivity.
Qed.

(** ** [int] reads back what [str] writes *)

(** The characters of the string are no whitespace for [int]. *)
Definition no_int_space (s : string) : bool :=
  forallb (fun c => negb (is_int_space c)) (list_ascii_of_string s).

Lemma int_rstrip_no_space (s : string) :
  no_int_space s = true -> int_rstrip s = s.
Proof.
  unfold no_int_space. induction s as [|c s IH]; cbn; [reflexivity|].
  intros H. apply andb_true_iff in H as [Hc Hs]. rewrite (IH Hs).
  destruct s; [|reflexivity].
  destruct (is_int_space c); [discriminate | reflexivity].
Qed.

Lemma int_strip_no_space (s : string) :
  no_int_space s = true -> int_strip s = s.
Proof.
  intros H. unfold int_strip.
  replace (int_lstrip s) with s; [apply int_rstrip_no_space; exact H|].
  destruct s as [|c s]; [reflexivity|]. unfold no_int_space in H. cbn in H |- *.
  destruct (is_int_space c); [discriminate | reflexivity].
Qed.

Lemma digits_no_int_space (d : Decimal.uint) :
  no_int_space (NilEmpty.string_of_uint d) = true.
Proof. induction d; cbn; auto. Qed.

Lemma int_digits_step (c : ascii) (s : string) (acc : Z) (count : nat) :
  is_digit c = true ->
  int_digits false acc count (String c s)
  = int_digits false (acc * 10 + digit_value c) (S count) s.
Proof. intros H. cbn [int_digits]. rewrite H. reflexivity. Qed.

(** The result of reading [count + nb_digits d] digits in all. *)
Definition within_limit (digits : nat) (v : Z) : option Z :=
  if (max_str_digits <? digits)%nat then None else Some v.

Lemma int_digits_acc (d : Decimal.uint) :
  forall (acc : positive) (count : nat),
    int_digits false (Zpos acc) count (NilEmpty.string_of_uint d)
    = within_limit (count + Decimal.nb_digits d) (Zpos (Pos.of_uint_acc d acc)).
Proof.
  induction d; intros acc count;
    cbn [NilEmpty.string_of_uint Pos.of_uint_acc Decimal.nb_digits].
  { rewrite Nat.add_0_r. reflexivity. }
  all: rewrite int_digits_step by reflexivity;
    rewrite <- Nat.add_succ_comm, <- IHd; f_equal;
    unfold digit_value; simpl (Z.of_N _); lia.
Qed.

Lemma int_digits_zero (d : Decimal.uint) :
  forall count : nat,
    int_digits false 0 count (NilEmpty.string_of_uint d)
    = within_limit (count + Decimal.nb_digits d) (Z.of_N (Pos.of_uint d)).
Proof.
  induction d; intros count;
    cbn [NilEmpty.string_of_uint Pos.of_uint Decimal.nb_digits].
  { rewrite Nat.add_0_r. reflexivity. }
  all: rewrite int_digits_step by reflexivity;
    rewrite <- Nat.add_succ_comm;
    try exact (IHd (S count));
    cbn [Z.of_N]; rewrite <- int_digits_acc; reflexivity.
Qed.

Lemma int_unsigned_digits (p : positive) :
  int_unsigned (NilEmpty.string_of_uint (Pos.to_uint p))
  = within_limit (Decimal.nb_digits (Pos.to_uint p)) (Zpos p).
Proof.
  pose proof (int_digits_zero (Pos.to_uint p) 0) as H.
  rewrite DecimalPos.Unsigned.of_to in H. cbn [Z.of_N Nat.add] in H.
  pose proof (DecimalPos.Unsigned.to_uint_nonnil p) as Hnil.
  destruct (Pos.to_uint p); [congruence| ..]; exact H.
Qed.

(** The number of decimal digits of an integer. *)
Definition digits_of (z : Z) : nat :=
  match z with
  | Z0 => 1
  | Zpos p | Zneg p => Decimal.nb_digits (Pos.to_uint p)
  end.

(** [int] reads back what [str] writes, for an integer within the limit
    on the number of digits. *)
Lemma int_of_str_of_Z (z : Z) :
  (digits_of z <= max_str_digits)%nat -> int_of_str (str_of_Z z) = Some z.
Proof.
  unfold int_of_str, str_of_Z. destruct z as [|p|p]; [reflexivity| |];
    cbn [digits_of Z.to_int NilZero.string_of_int]; intros Hlen;
    pose proof (int_unsigned_digits p) as H;
    pose proof (digits_no_int_space (Pos.to_uint p)) as Hs;
    pose proof (DecimalPos.Unsigned.to_uint_nonnil p) as Hnil;
    unfold within_limit in H;
    apply Nat.ltb_ge in Hlen; rewrite Hlen in H;
    unfold NilZero.string_of_uint.
  - destruct (Pos.to_uint p); [congruence| ..];
      rewrite (int_strip_no_space _ Hs); exact H.
  - destruct (Pos.to_uint p); [congruence| ..];
      (rewrite int_strip_no_space by exact Hs);
      cbv beta iota; rewrite H; reflexivity.
Qed.

(** A VLAN id of 1..4094 has at most four digits. *)
Lemma vlan_digits (vlan_id : Z) :
  1 <= vlan_id <= 4094 -> (digits_of vlan_id <= 4)%nat.
Proof.
  intros H.
  assert (Hall : forallb (fun n => (digits_of (Z.of_nat n) <=? 4)%nat)
                   (seq 1 4094) = true) by (vm_compute; reflexivity).
  rewrite forallb_forall in Hall.
  specialize (Hall (Z.to_nat vlan_id)).
  rewrite Z2Nat.id in Hall by lia.
  apply Nat.leb_le, Hall, in_seq. lia.
Qed.

(** What [int] returns is below the bound at which [str] would refuse to
    write it: the ports and VLAN ids that the loop parses can be written
    into the URL and the payload. *)
Lemma digit_value_range (c : ascii) :
  is_digit c = true -> 0 <= digit_value c <= 9.
Proof.
  unfold is_digit, digit_value. intros H.
  apply andb_true_iff in H as [H1 H2].
  apply N.leb_le in H1. apply N.leb_le in H2. lia.
Qed.

Lemma int_digits_bound (s : string) :
  forall after_us acc count v,
    int_digits after_us acc count s = Some v ->
    0 <= acc < 10 ^ Z.of_nat count ->
    0 <= v < 10 ^ Z.of_nat max_str_digits.
Proof.
  induction s as [|c s IH]; intros after_us acc count v; cbn [int_digits].
  - destruct after_us; [discriminate|].
    destruct (Nat.ltb_spec max_str_digits count) as [Hgt | Hle]; [discriminate|].
    intros [= <-] Hacc.
    assert (10 ^ Z.of_nat count <= 10 ^ Z.of_nat max_str_digits)
      by (apply Z.pow_le_mono_r; lia).
    lia.
  - destruct (is_digit c) eqn:Hd.
    + intros H Hacc. apply (IH _ _ _ _ H).
      pose proof (digit_value_range c Hd).
      rewrite Nat2Z.inj_succ, Z.pow_succ_r by lia. lia.
    + destruct (Ascii.eqb c "_"); [|discriminate].
      destruct after_us; [discriminate|]. apply IH.
Qed.

Lemma int_of_str_bound (s : string) (z : Z) :
  int_of_str s = Some z -> Z.abs z < 10 ^ Z.of_nat max_str_digits.
Proof.
  assert (Hu : forall t v, int_unsigned t = Some v ->
                           0 <= v < 10 ^ Z.of_nat max_str_digits).
  { intros [|c t] v; cbn [int_unsigned]; [discriminate|].
    destruct (is_digit c) eqn:Hd; [|discriminate].
    intros H. apply (int_digits_bound _ _ _ _ _ H).
    pose proof (digit_value_range c Hd).
    change (10 ^ Z.of_nat 1) with 10. lia. }
  unfold int_of_str.
  assert (Hneg : forall t, option_map Z.opp (int_unsigned t) = Some z ->
                           Z.abs z < 10 ^ Z.of_nat max_str_digits).
  { intros t H. destruct (int_unsigned t) as [v|] eqn:Hv; [|discriminate].
    injection H as <-. apply Hu in Hv. lia. }
  assert (Hpos : forall t, int_unsigned t = Some z ->
                           Z.abs z < 10 ^ Z.of_nat max_str_digits).
  { intros t H. apply Hu in H. lia. }
  destruct (int_strip s) as [|c t]; [apply Hpos|].
  destruct c as [[] [] [] [] [] [] [] []]; cbv beta iota;
    first [apply Hpos | apply Hneg].
Qed.

(** X18.  The two VLAN fields of the payload agree, for every VLAN id
    that passes the range test of the loop, 1..4094: [overwriteUntagId] is
    the integer, [overwriteVlanMembers] is a string, and [int] reads that
    string back as the same integer. *)
Theorem payload_vlan_fields_agree (vlan_id : Z) :
  1 <= vlan_id <= 4094 ->
  exists fields members,
    payload vlan_id = JObj fields /\
    dict_get "overwriteUntagId" fields = JNum vlan_id /\
    dict_get "overwriteVlanMembers" fields = JStr members /\
    int_of_str members = Some vlan_id.
Proof.
  intros Hrange. unfold payload. do 2 eexists. split; [reflexivity|].
  split; [reflexivity|]. split; [reflexivity|]. apply int_of_str_of_Z.
  apply vlan_digits in Hrange. unfold max_str_digits. lia.
Qed.

Lemma payload_vlan_fields_agree_witness :
  exists fields members,
    payload 4094 = JObj fields /\
    dict_get "overwriteUntagId" fields = JNum 4094 /\
    dict_get "overwriteVlanMembers" fields = JStr members /\
    int_of_str members = Some 4094.
Proof. apply (payload_vlan_fields_agree 4094). lia. Defined.
